(** * strawberry/field.py: the field descriptor and its Binder

    A shallow embedding of [check_return_annotation], of the class
    [StrawberryField] (a subclass of [dataclasses.Field]) and of the entry
    point [field].

    Python objects that the code mutates in place live in a store: every
    [FieldDefinition] instance has an address, and the Binder, the local
    variable [field_definition] and the attribute [_field_definition] that
    [__call__] installs on the resolver all hold that address.  Code is
    written in a state-and-exception monad; a raised exception keeps the
    mutations made before it, as in Python. *)

From Stdlib Require Import Ascii.
From stdpp Require Import base option strings gmap.

Open Scope string_scope.

(** ** Python values *)

(** Addresses of [FieldDefinition] instances. *)
Abbreviation loc := positive.

(** A class or a [typing] construct, as found in annotations.  This module
    only stores and passes them on. *)
Inductive py_type : Type :=
| PyType (qualname : string).

(** The objects that this module reads from or writes to the attributes
    [name], [origin_name] and [type] of a descriptor and to the slots of a
    [dataclasses.Field].  The attributes are not type checked at run time, so
    they hold an [object]. *)
Inductive object : Type :=
| None_
| Str (s : string)
| Bool (b : bool)
| Type_ (t : py_type)
| MISSING
| MappingProxy (items : list (string * string)).

(** Truth value testing ([if x], [not x], [x or y], [x and y]). *)
Definition truthy (x : object) : bool :=
  match x with
  | None_ => false
  | Str s => negb (String.eqb s "")
  | Bool b => b
  | Type_ _ => true
  | MISSING => true
  | MappingProxy items => negb (Nat.eqb (length items) 0)
  end.

(** [x or y] *)
Definition or_ (x y : object) : object := if truthy x then x else y.

(** [x is None], for an attribute that holds a function or [None]. *)
Definition is_None {A : Type} (x : option A) : bool :=
  match x with
  | None => true
  | Some _ => false
  end.

(** An annotation of a parameter or of the return value: a type, or a
    forward reference (a string) that names nothing in the scope of the
    function.  A forward reference that does resolve is given as the type
    it resolves to. *)
Inductive annotation : Type :=
| Annotation (t : py_type)
| ForwardRef (name : string).

(** A resolver: a callable object that has a [__name__] (a function, a
    bound method, a builtin), with its identity, the names of its
    parameters, its annotations, and whether attributes can be assigned to
    it: a function defined with [def] has a [__dict__], a bound method or a
    builtin has not.  The attribute [_field_definition] that [__call__] sets
    on it is kept in the store, keyed by [id].  This file reads [__name__]
    and the annotations; the parameters are for the argument-extraction
    collaborator. *)
Module Callable.
Record t : Type := mk {
  id : positive;
  __name__ : string;
  parameters : list string;
  __annotations__ : gmap string annotation;
  has_dict : bool;
}.
End Callable.

(** [strawberry.types.types.ArgumentDefinition]: produced by the
    argument-extraction collaborator and stored verbatim. *)
Record ArgumentDefinition : Type := {
  argument_name : string;
  argument_type : py_type;
}.

(** Modelled from the spec: [strawberry.types.types.FederationFieldParams] is
    not part of this file; an opaque parameter bundle whose default instance
    is empty. *)
Record FederationFieldParams : Type := {
  federation_params : list (string * object);
}.

Definition FederationFieldParams_ : FederationFieldParams :=
  {| federation_params := [] |}.

(** [strawberry.types.types.FieldDefinition], with the attributes that
    [field] passes to its constructor. *)
Module FieldDefinition.
Record t : Type := mk {
  origin_name : object;
  name : object;
  type : object;
  origin : option Callable.t;
  description : option string;
  base_resolver : option Callable.t;
  is_subscription : bool;
  permission_classes : list py_type;
  arguments : list ArgumentDefinition;
  federation : FederationFieldParams;
}.

Definition set_origin_name (v : object) (d : t) : t :=
  mk v (name d) (type d) (origin d) (description d) (base_resolver d)
     (is_subscription d) (permission_classes d) (arguments d) (federation d).

Definition set_name (v : object) (d : t) : t :=
  mk (origin_name d) v (type d) (origin d) (description d) (base_resolver d)
     (is_subscription d) (permission_classes d) (arguments d) (federation d).

Definition set_type (v : object) (d : t) : t :=
  mk (origin_name d) (name d) v (origin d) (description d) (base_resolver d)
     (is_subscription d) (permission_classes d) (arguments d) (federation d).

Definition set_origin (v : option Callable.t) (d : t) : t :=
  mk (origin_name d) (name d) (type d) v (description d) (base_resolver d)
     (is_subscription d) (permission_classes d) (arguments d) (federation d).

Definition set_arguments (v : list ArgumentDefinition) (d : t) : t :=
  mk (origin_name d) (name d) (type d) (origin d) (description d)
     (base_resolver d) (is_subscription d) (permission_classes d) v
     (federation d).
End FieldDefinition.

(** ** Exceptions and the store *)

(** An exception raised inside the argument-extraction collaborator. *)
Record CollaboratorError : Type := {
  exception_class : string;
  exception_args : list object;
}.

Inductive Exception : Type :=
| MissingReturnAnnotationError (field_name : object)
| TypeError
| NameError
| AttributeError
| ReferenceError
| Propagated (e : CollaboratorError).

Module typing.

Definition resolve (a : annotation) : option py_type :=
  match a with
  | Annotation t => Some t
  | ForwardRef _ => None
  end.

(** [typing.get_type_hints(f)] for a callable [f]: its annotations, each
    evaluated; a forward reference that does not resolve raises
    [NameError]. *)
Definition get_type_hints (f : Callable.t)
  : Exception + gmap string py_type :=
  if decide (map_Forall (λ _ a, is_Some (resolve a)) (Callable.__annotations__ f))
  then inr (omap resolve (Callable.__annotations__ f))
  else inl NameError.

End typing.

Record Store : Type := mkStore {
  definitions : gmap loc FieldDefinition.t;
  function_attrs : gmap positive loc;
}.

(** Computations: the outcome and the store they leave. *)
Definition M (A : Type) : Type := Store → (Exception + A) * Store.

#[global] Instance M_ret : MRet M := λ A a σ, (inr a, σ).

#[global] Instance M_bind : MBind M := λ A B f m σ,
  match m σ with
  | (inl e, σ') => (inl e, σ')
  | (inr a, σ') => f a σ'
  end.

Definition raise {A : Type} (e : Exception) : M A := λ σ, (inl e, σ).

(** The outcome and the final store of a computation. *)
Definition outcome {A : Type} (m : M A) (σ : Store) : Exception + A := (m σ).1.
Definition final {A : Type} (m : M A) (σ : Store) : Store := (m σ).2.

(** Reading the instance at an address.  An address with no instance does
    not arise in Python; the model answers it with [ReferenceError]. *)
Definition deref (l : loc) : M FieldDefinition.t := λ σ,
  match definitions σ !! l with
  | Some d => (inr d, σ)
  | None => (inl ReferenceError, σ)
  end.

(** [obj.attr]. *)
Definition getattr {A : Type} (l : loc) (attr : FieldDefinition.t → A) : M A :=
  d ← deref l; mret (attr d).

(** Overwriting the instance at an address. *)
Definition put (l : loc) (d : FieldDefinition.t) : M unit := λ σ,
  (inr tt, mkStore (<[l := d]> (definitions σ)) (function_attrs σ)).

(** [obj.attr = v], in place. *)
Definition setattr (l : loc) (assign : FieldDefinition.t → FieldDefinition.t)
  : M unit :=
  d ← deref l; put l (assign d).

(** A new instance, at an address not in use. *)
Definition new (d : FieldDefinition.t) : M loc := λ σ,
  let l := fresh (dom (definitions σ)) in
  (inr l, mkStore (<[l := d]> (definitions σ)) (function_attrs σ)).

(** [f._field_definition = obj] on a callable: [AttributeError] when the
    object takes no attributes. *)
Definition set_function_attr (f : Callable.t) (l : loc) : M unit := λ σ,
  if Callable.has_dict f then
    (inr tt,
     mkStore (definitions σ) (<[Callable.id f := l]> (function_attrs σ)))
  else (inl AttributeError, σ).

(** The outcome of a collaborator, raised or returned. *)
Definition lift {A : Type} (r : CollaboratorError + A) : M A :=
  match r with
  | inl e => raise (Propagated e)
  | inr a => mret a
  end.

(** The outcome of a library function, raised or returned. *)
Definition propagate {A : Type} (r : Exception + A) : M A :=
  match r with
  | inl e => raise e
  | inr a => mret a
  end.

(** ** Collaborators

    [to_camel_case] and [get_arguments_from_resolver] are imported from
    modules that are not part of this file; the code is verified for every
    implementation of them. *)
Class Collaborators : Type := {
  to_camel_case : string → string;
  get_arguments_from_resolver :
    Callable.t → object → CollaboratorError + list ArgumentDefinition;
}.

(** ** The code of field.py *)

Section field_py.
Context `{Collaborators}.

(** [to_camel_case(value)] on an attribute value.  The collaborator is
    declared on [str] and begins with [value.split("_")]; an object of the
    model that is not a [str] has no method [split], and the call raises
    [AttributeError]. *)
Definition call_to_camel_case (value : object) : M object :=
  match value with
  | Str s => mret (Str (to_camel_case s))
  | _ => raise AttributeError
  end.

(** [check_return_annotation(field_definition)], lines 13-18.
    [typing.get_type_hints(None)] raises [TypeError]. *)
Definition check_return_annotation (field_definition : loc) : M unit :=
  f ← getattr field_definition FieldDefinition.base_resolver;
  name ← getattr field_definition FieldDefinition.name;
  match f with
  | None => raise TypeError
  | Some f =>
      hints ← propagate (typing.get_type_hints f);
      match hints !! "return" with
      | None => raise (MissingReturnAnnotationError name)
      | Some _ => mret tt
      end
  end.

End field_py.

(** The class [StrawberryField(dataclasses.Field)].  An instance holds the
    address of its descriptor, the slots [name] and [type] of
    [dataclasses.Field], and its remaining attributes by name. *)
Module StrawberryField.

Record t : Type := mk {
  _field_definition : loc;
  name : object;
  type : object;
  attrs : gmap string object;
}.

(** [object.__setattr__(self, name, value)], reached through [super()],
    for the attributes that an instance stores as given: the slots of
    [dataclasses.Field] and the names kept in the instance's [__dict__]
    ([plain_attribute] below).  An assignment to [_field_definition] after
    construction would rebind the descriptor, and one to a name of the form
    [__x__] ([__class__], [__dict__]) may be refused by the object; neither
    is modelled, and the theorems below assign to [name], to [type] and to
    plain attributes only. *)
Definition object___setattr__ (self : t) (name : string) (value : object) : t :=
  if decide (name = "name") then
    mk (_field_definition self) value (type self) (attrs self)
  else if decide (name = "type") then
    mk (_field_definition self) (StrawberryField.name self) value (attrs self)
  else
    mk (_field_definition self) (StrawberryField.name self) (type self)
       (<[name := value]> (attrs self)).

Section methods.
Context `{Collaborators}.

(** [__setattr__(self, name, value)], lines 58-69.  The method mutates
    [self]; the model returns the instance after the assignment. *)
Definition __setattr__ (self : t) (name : string) (value : object) : M t :=
  (if decide (name = "type") then
     setattr (_field_definition self) (FieldDefinition.set_type value)
   else mret tt);;
  (if truthy value && bool_decide (name = "name") then
     origin_name ← getattr (_field_definition self) FieldDefinition.origin_name;
     (if negb (truthy origin_name) then
        setattr (_field_definition self) (FieldDefinition.set_origin_name value)
      else mret tt);;
     name' ← getattr (_field_definition self) FieldDefinition.name;
     (if negb (truthy name') then
        converted ← call_to_camel_case value;
        setattr (_field_definition self) (FieldDefinition.set_name converted)
      else mret tt)
   else mret tt);;
  mret (object___setattr__ self name value).

(** [dataclasses.Field.__init__] of Python 3.7 to 3.9, the versions whose
    signature the call at lines 27-35 matches.  Each assignment goes through
    the [__setattr__] of the subclass. *)
Definition Field___init__ (self : t)
    (default default_factory init repr hash compare metadata : object) : M t :=
  self ← __setattr__ self "name" None_;
  self ← __setattr__ self "type" None_;
  self ← __setattr__ self "default" default;
  self ← __setattr__ self "default_factory" default_factory;
  self ← __setattr__ self "init" init;
  self ← __setattr__ self "repr" repr;
  self ← __setattr__ self "hash" hash;
  self ← __setattr__ self "compare" compare;
  self ← __setattr__ self "metadata"
           (match metadata with None_ => MappingProxy [] | _ => metadata end);
  __setattr__ self "_field_type" None_.

(** [__init__(self, field_definition)], lines 24-35.  The first assignment,
    to [_field_definition], passes [__setattr__] unchanged: its name is
    neither [type] nor [name]. *)
Definition __init__ (field_definition : loc) : M t :=
  let self := mk field_definition None_ None_ ∅ in
  base_resolver ← getattr field_definition FieldDefinition.base_resolver;
  Field___init__ self MISSING MISSING
    (Bool (is_None base_resolver)) (Bool true) None_ (Bool true) None_.

(** [__call__(self, resolver)], lines 37-56. *)
Definition __call__ (self : t) (resolver : Callable.t) : M Callable.t :=
  let field_definition := _field_definition self in
  let resolver_name := Str (to_camel_case (Callable.__name__ resolver)) in
  name' ← getattr field_definition FieldDefinition.name;
  setattr field_definition (FieldDefinition.set_name (or_ name' resolver_name));;
  setattr field_definition (FieldDefinition.set_origin_name resolver_name);;
  setattr field_definition (FieldDefinition.set_origin (Some resolver));;
  arguments ← lift (get_arguments_from_resolver resolver (name self));
  setattr field_definition (FieldDefinition.set_arguments arguments);;
  hints ← propagate (typing.get_type_hints resolver);
  setattr field_definition
    (FieldDefinition.set_type
       (match hints !! "return" with
        | Some t => Type_ t
        | None => None_
        end));;
  set_function_attr resolver field_definition;;
  mret resolver.

End methods.
End StrawberryField.

(** [permission_classes or []]: a list is true when it is not empty. *)
Definition or_list {A : Type} (x : option (list A)) : list A :=
  match x with
  | Some (a :: l) => a :: l
  | _ => []
  end.

(** [federation or FederationFieldParams()]: an instance of the bundle is
    true. *)
Definition or_default (x : option FederationFieldParams)
  : FederationFieldParams :=
  match x with
  | Some params => params
  | None => FederationFieldParams_
  end.

(** What [field] returns: the resolver it was given, or the Binder. *)
Inductive field_result : Type :=
| Resolver (resolver : Callable.t)
| Binder (field_ : StrawberryField.t).

Section field_py_entry.
Context `{Collaborators}.

(** [field(resolver, *, name, is_subscription, description,
    permission_classes, federation)], lines 72-123.  A function object is
    true, so [if resolver] tests [resolver is not None]. *)
Definition field (resolver : option Callable.t) (name : object)
    (is_subscription : bool) (description : option string)
    (permission_classes : option (list py_type))
    (federation : option FederationFieldParams) : M field_result :=
  '(resolver_name, name, arguments) ←
    match resolver
    return M (object * object * list ArgumentDefinition) with
    | Some resolver =>
        let resolver_name := Str (to_camel_case (Callable.__name__ resolver)) in
        arguments ← lift (get_arguments_from_resolver resolver resolver_name);
        mret (resolver_name, or_ name resolver_name, arguments)
    | None => mret (None_, name, [])
    end;
  field_definition ← new (FieldDefinition.mk
    resolver_name name None_ resolver description resolver is_subscription
    (or_list permission_classes) arguments (or_default federation));
  match resolver with
  | Some resolver =>
      self ← StrawberryField.__init__ field_definition;
      field_ ← StrawberryField.__call__ self resolver;
      mret (Resolver field_)
  | None =>
      field_ ← StrawberryField.__init__ field_definition;
      mret (Binder field_)
  end.

End field_py_entry.

(** The descriptor of a Binder, read from the store. *)
Definition descriptor (self : StrawberryField.t) (σ : Store)
  : option FieldDefinition.t :=
  definitions σ !! StrawberryField._field_definition self.

(** ** Operations in sequence *)

(** The attribute names that [__setattr__] intercepts. *)
Inductive intercepted : Type :=
| attr_type
| attr_name.

Definition attr_str (a : intercepted) : string :=
  match a with
  | attr_type => "type"
  | attr_name => "name"
  end.

(** An operation on a Binder after its construction: an assignment
    [binder.type = value] or [binder.name = value], or the completion
    [binder(resolver)]. *)
Inductive operation : Type :=
| Assign (a : intercepted) (value : object)
| Complete (resolver : Callable.t).

Section sequences.
Context `{Collaborators}.

(** One operation of a caller that goes on after an exception: the store
    keeps what the operation wrote before it raised, and an assignment that
    raised has not reached [object.__setattr__]. *)
Definition perform (op : operation) (st : StrawberryField.t * Store)
  : StrawberryField.t * Store :=
  match op with
  | Assign a value =>
      match StrawberryField.__setattr__ st.1 (attr_str a) value st.2 with
      | (inr self, σ) => (self, σ)
      | (inl _, σ) => (st.1, σ)
      end
  | Complete resolver =>
      (st.1, final (StrawberryField.__call__ st.1 resolver) st.2)
  end.

Definition perform_all (ops : list operation)
    (st : StrawberryField.t * Store) : StrawberryField.t * Store :=
  foldl (λ st op, perform op st) st ops.

End sequences.

(** ** The descriptor after each method

    What the methods leave in a descriptor, as functions of the descriptor
    before the call.  The section on running the code proves that the
    methods compute them. *)

Section effects.
Context `{Collaborators}.

(** [to_camel_case(resolver.__name__)] *)
Definition display_name (resolver : Callable.t) : object :=
  Str (to_camel_case (Callable.__name__ resolver)).

(** The descriptor after [__call__], up to the call of the collaborator. *)
Definition renamed (resolver : Callable.t) (d : FieldDefinition.t)
  : FieldDefinition.t :=
  FieldDefinition.mk (display_name resolver)
    (or_ (FieldDefinition.name d) (display_name resolver))
    (FieldDefinition.type d)
    (Some resolver) (FieldDefinition.description d)
    (FieldDefinition.base_resolver d) (FieldDefinition.is_subscription d)
    (FieldDefinition.permission_classes d) (FieldDefinition.arguments d)
    (FieldDefinition.federation d).

(** [hints.get("return")] *)
Definition return_hint (hints : gmap string py_type) : object :=
  match hints !! "return" with
  | Some t => Type_ t
  | None => None_
  end.

(** The descriptor after [__call__], on a Binder whose own [name] is
    [label]: as far as the method got before an exception. *)
Definition completed (label : object) (resolver : Callable.t)
    (d : FieldDefinition.t) : FieldDefinition.t :=
  match get_arguments_from_resolver resolver label with
  | inl _ => renamed resolver d
  | inr arguments =>
      match typing.get_type_hints resolver with
      | inl _ => FieldDefinition.set_arguments arguments (renamed resolver d)
      | inr hints =>
          FieldDefinition.set_type (return_hint hints)
            (FieldDefinition.set_arguments arguments (renamed resolver d))
      end
  end.

(** What [__call__] returns or raises. *)
Definition completion_outcome (label : object) (resolver : Callable.t)
  : Exception + Callable.t :=
  match get_arguments_from_resolver resolver label with
  | inl e => inl (Propagated e)
  | inr _ =>
      match typing.get_type_hints resolver with
      | inl e => inl e
      | inr _ =>
          if Callable.has_dict resolver then inr resolver
          else inl AttributeError
      end
  end.

(** The names that an instance stores as given: not the two that
    [__setattr__] intercepts, not [_field_definition], and not a name that
    begins with two underscores. *)
Definition plain_attribute (name : string) : bool :=
  negb (bool_decide (name ∈ ["type"; "name"; "_field_definition"]))
  && negb (String.prefix "__" name).

(** The descriptor after [binder.name = value] or [binder.type = value], or
    after an assignment to another attribute of the Binder. *)
Definition assigned (name : string) (value : object) (d : FieldDefinition.t)
  : FieldDefinition.t :=
  if decide (name = "type") then FieldDefinition.set_type value d
  else if truthy value && bool_decide (name = "name") then
    FieldDefinition.mk
      (if truthy (FieldDefinition.origin_name d)
       then FieldDefinition.origin_name d else value)
      (if truthy (FieldDefinition.name d) then FieldDefinition.name d
       else match value with
            | Str s => Str (to_camel_case s)
            | _ => FieldDefinition.name d
            end)
      (FieldDefinition.type d) (FieldDefinition.origin d)
      (FieldDefinition.description d) (FieldDefinition.base_resolver d)
      (FieldDefinition.is_subscription d) (FieldDefinition.permission_classes d)
      (FieldDefinition.arguments d) (FieldDefinition.federation d)
  else d.

(** Whether the assignment raises: [to_camel_case] is reached with an object
    that is not a [str]. *)
Definition assignment_raises (name : string) (value : object)
    (d : FieldDefinition.t) : bool :=
  truthy value && bool_decide (name = "name")
  && negb (truthy (FieldDefinition.name d))
  && match value with Str _ => false | _ => true end.

(** The slots that [dataclasses.Field.__init__] fills besides [name] and
    [type], for the arguments that [__init__] passes. *)
Definition field_slots (init : object) : gmap string object :=
  <["_field_type" := None_]> (<["metadata" := MappingProxy []]>
  (<["compare" := Bool true]> (<["hash" := None_]> (<["repr" := Bool true]>
  (<["init" := init]> (<["default_factory" := MISSING]>
  (<["default" := MISSING]> ∅))))))).

(** The descriptor that [field] constructs. *)
Definition constructed (resolver : option Callable.t) (resolver_name name : object)
    (is_subscription : bool) (description : option string)
    (permission_classes : option (list py_type))
    (arguments : list ArgumentDefinition)
    (federation : option FederationFieldParams) : FieldDefinition.t :=
  FieldDefinition.mk resolver_name name None_ resolver description resolver
    is_subscription (or_list permission_classes) arguments
    (or_default federation).

End effects.

(** ** Sample collaborators and inputs

    Implementations of the two collaborators on which the code can be run,
    and the resolvers and stores of the scenarios of section 8 of the
    specification. *)

Definition upper (c : Ascii.ascii) : Ascii.ascii :=
  let n := Ascii.nat_of_ascii c in
  if (97 <=? n)%nat && (n <=? 122)%nat then Ascii.ascii_of_nat (n - 32) else c.

Fixpoint camel_from (capitalize : bool) (s : string) : string :=
  match s with
  | EmptyString => EmptyString
  | String c rest =>
      if Ascii.eqb c "_"%char then camel_from true rest
      else String (if capitalize then upper c else c) (camel_from false rest)
  end.

(** Modelled from the spec: the case-conversion collaborator
    ([strawberry.utils.str_converters.to_camel_case], not part of this file),
    from snake case to camel case; it leaves a camel-case identifier as it
    is. *)
Definition sample_to_camel_case (identifier : string) : string :=
  camel_from false identifier.

(** The parameters that a resolver receives from the framework. *)
Definition special_argument (p : string) : bool :=
  bool_decide (p ∈ ["root"; "self"; "info"]).

(** Modelled from the spec: the argument-extraction collaborator
    ([strawberry.arguments.get_arguments_from_resolver], not part of this
    file): one argument for each parameter of the resolver's signature but
    [root], [self] and [info]; the field name it is given labels the
    diagnostic, here the exception raised when a parameter has no
    annotation. *)
Definition sample_get_arguments_from_resolver (resolver : Callable.t)
    (field_name : object) : CollaboratorError + list ArgumentDefinition :=
  let annotations := Callable.__annotations__ resolver in
  let declared_type a :=
    match a with
    | Annotation t => t
    | ForwardRef name => PyType name
    end in
  let function_arguments :=
    List.filter (λ p, negb (special_argument p)) (Callable.parameters resolver) in
  let missing :=
    List.filter (λ p, bool_decide (annotations !! p = None)) function_arguments in
  match missing with
  | [] =>
      inr (omap (λ p, (λ a, {| argument_name := p;
                                  argument_type := declared_type a |})
                        <$> annotations !! p) function_arguments)
  | _ :: _ =>
      inl {| exception_class := "MissingArgumentsAnnotationsError";
             exception_args := field_name :: (Str <$> missing) |}
  end.

#[local] Instance sample_collaborators : Collaborators := {|
  to_camel_case := sample_to_camel_case;
  get_arguments_from_resolver := sample_get_arguments_from_resolver;
|}.

Definition str : py_type := PyType "str".
Definition User : py_type := PyType "User".

(** [def fetchUser(self, info, id: str) -> User] *)
Definition fetchUser : Callable.t :=
  Callable.mk 1 "fetchUser" ["self"; "info"; "id"]
    (<["id" := Annotation str]> (<["return" := Annotation User]> ∅)) true.

(** [def get_user_profile(self, info)], with no return annotation. *)
Definition get_user_profile : Callable.t :=
  Callable.mk 2 "get_user_profile" ["self"; "info"] ∅ true.

(** [def resolve_items(self, info, first) -> str]: [first] is not
    annotated. *)
Definition resolve_items : Callable.t :=
  Callable.mk 3 "resolve_items" ["self"; "info"; "first"]
    (<["return" := Annotation str]> ∅) true.


(** The bound method [service.fetch_all], annotated [-> str]. *)
Definition fetch_all : Callable.t :=
  Callable.mk 5 "fetch_all" [] (<["return" := Annotation str]> ∅) false.

(** The store before any declaration. *)
Definition empty_store : Store := mkStore ∅ ∅.

(** The descriptor of [x = field(name=name)], the store that holds it alone,
    and the Binder [x]. *)
Definition declaration (name : object) : FieldDefinition.t :=
  FieldDefinition.mk None_ name None_ None None None false [] []
    FederationFieldParams_.

Definition declared (name : object) : Store :=
  mkStore {[1%positive := declaration name]} ∅.

(** The descriptor of [field(resolver)], with the annotation and the
    arguments found for the resolver. *)
Definition resolved (resolver : Callable.t) (type : object)
    (arguments : list ArgumentDefinition) : FieldDefinition.t :=
  FieldDefinition.mk
    (Str (sample_to_camel_case (Callable.__name__ resolver)))
    (Str (sample_to_camel_case (Callable.__name__ resolver)))
    type (Some resolver) None (Some resolver) false [] arguments
    FederationFieldParams_.

Definition declared_binder : StrawberryField.t :=
  StrawberryField.mk 1 None_ None_ (field_slots (Bool true)).

(** * Running the code

    Equations for the primitives of the monad and, from them, what each
    function of field.py returns and leaves in the store. *)

Lemma bind_returned {A B : Type} (m : M A) (f : A → M B) σ a σ' :
  m σ = (inr a, σ') → (m ≫= f) σ = f a σ'.
Proof. intros E. unfold mbind, M_bind. by rewrite E. Qed.

Lemma bind_raised {A B : Type} (m : M A) (f : A → M B) σ e σ' :
  m σ = (inl e, σ') → (m ≫= f) σ = (inl e, σ').
Proof. intros E. unfold mbind, M_bind. by rewrite E. Qed.

Lemma bind_assoc {A B C : Type} (m : M A) (f : A → M B) (g : B → M C) σ :
  ((m ≫= f) ≫= g) σ = (m ≫= λ a, f a ≫= g) σ.
Proof. unfold mbind, M_bind. by destruct (m σ) as [[e|a] σ']. Qed.

Lemma getattr_returned {A : Type} l (attr : FieldDefinition.t → A) σ d :
  definitions σ !! l = Some d → getattr l attr σ = (inr (attr d), σ).
Proof.
  intros E. unfold getattr, deref, mbind, M_bind. by rewrite E.
Qed.

Lemma getattr_dangling {A : Type} l (attr : FieldDefinition.t → A) σ :
  definitions σ !! l = None → getattr l attr σ = (inl ReferenceError, σ).
Proof.
  intros E. unfold getattr, deref, mbind, M_bind. by rewrite E.
Qed.

Lemma setattr_returned l assign σ d :
  definitions σ !! l = Some d →
  setattr l assign σ
  = (inr tt, mkStore (<[l := assign d]> (definitions σ)) (function_attrs σ)).
Proof.
  intros E. unfold setattr, deref, mbind, M_bind. by rewrite E.
Qed.

Lemma setattr_dangling l assign σ :
  definitions σ !! l = None → setattr l assign σ = (inl ReferenceError, σ).
Proof.
  intros E. unfold setattr, deref, mbind, M_bind. by rewrite E.
Qed.

Lemma mret_returned {A : Type} (a : A) σ : mret (M := M) a σ = (inr a, σ).
Proof. reflexivity. Qed.

(** The instance at [l] after one assignment to it. *)
Lemma lookup_assigned l d (m : gmap loc FieldDefinition.t) fa :
  definitions (mkStore (<[l := d]> m) fa) !! l = Some d.
Proof. apply lookup_insert_eq. Qed.

(** One statement of a method body: run it, given the instance that its
    address holds. *)
Ltac run_statement :=
  cbn beta iota; rewrite ?bind_assoc;
  first
    [ erewrite bind_returned;
      [| first [ apply getattr_returned | apply setattr_returned ];
         first [ eassumption | apply lookup_assigned ] ]
    | erewrite bind_returned; [| apply mret_returned ] ];
  cbn [definitions function_attrs
       FieldDefinition.origin_name FieldDefinition.name FieldDefinition.type
       FieldDefinition.set_origin_name FieldDefinition.set_name].

Section running.
Context `{Collaborators}.

Lemma __call___run self resolver σ d :
  definitions σ !! StrawberryField._field_definition self = Some d →
  StrawberryField.__call__ self resolver σ
  = (completion_outcome (StrawberryField.name self) resolver,
     mkStore (<[StrawberryField._field_definition self :=
                  completed (StrawberryField.name self) resolver d]>
                (definitions σ))
             match completion_outcome (StrawberryField.name self) resolver with
             | inl _ => function_attrs σ
             | inr _ =>
                 <[Callable.id resolver :=
                     StrawberryField._field_definition self]> (function_attrs σ)
             end).
Proof.
  intros Hd. unfold StrawberryField.__call__, completed, completion_outcome.
  do 4 run_statement. rewrite !insert_insert_eq.
  destruct (get_arguments_from_resolver resolver (StrawberryField.name self))
    as [e|arguments]; cbn [lift].
  - erewrite bind_raised; [|reflexivity]. reflexivity.
  - do 2 run_statement. rewrite !insert_insert_eq.
    destruct (typing.get_type_hints resolver) as [e|hints]; cbn [propagate].
    + erewrite bind_raised; [|reflexivity]. reflexivity.
    + do 2 run_statement. rewrite !insert_insert_eq.
      unfold mbind, M_bind, set_function_attr.
      by destruct (Callable.has_dict resolver).
Qed.

Lemma FieldDefinition_eta d :
  FieldDefinition.mk (FieldDefinition.origin_name d) (FieldDefinition.name d)
    (FieldDefinition.type d) (FieldDefinition.origin d)
    (FieldDefinition.description d) (FieldDefinition.base_resolver d)
    (FieldDefinition.is_subscription d) (FieldDefinition.permission_classes d)
    (FieldDefinition.arguments d) (FieldDefinition.federation d) = d.
Proof. by destruct d. Qed.

Lemma store_unchanged σ l d :
  definitions σ !! l = Some d →
  mkStore (<[l := d]> (definitions σ)) (function_attrs σ) = σ.
Proof. intros E. destruct σ as [m fa]; cbn in *. by rewrite insert_id. Qed.

Lemma __setattr___run self name value σ d :
  definitions σ !! StrawberryField._field_definition self = Some d →
  StrawberryField.__setattr__ self name value σ
  = (if assignment_raises name value d then inl AttributeError
     else inr (StrawberryField.object___setattr__ self name value),
     mkStore (<[StrawberryField._field_definition self := assigned name value d]>
                (definitions σ))
             (function_attrs σ)).
Proof.
  intros Hd. unfold StrawberryField.__setattr__, assigned, assignment_raises.
  destruct (decide (name = "type")) as [->|Hty].
  - rewrite (bool_decide_eq_false_2 ("type" = "name")) by done.
    rewrite !andb_false_r. cbn [andb].
    run_statement. run_statement. reflexivity.
  - run_statement.
    destruct (truthy value && bool_decide (name = "name")) eqn:Hname;
      cbn [andb].
    + run_statement.
      destruct (truthy (FieldDefinition.origin_name d)) eqn:Hon; cbn [negb];
        do 2 run_statement;
        (destruct (truthy (FieldDefinition.name d)) eqn:Hnm; cbn [negb andb];
         [ repeat run_statement
         | destruct value; cbn [call_to_camel_case];
           first [ erewrite bind_raised; [|erewrite bind_raised; reflexivity]
                 | repeat run_statement ] ]);
        rewrite ?insert_insert_eq, ?FieldDefinition_eta;
        rewrite ?store_unchanged by done; by destruct d.
    + repeat run_statement. by rewrite store_unchanged.
Qed.

Lemma __setattr___other self name value σ d :
  definitions σ !! StrawberryField._field_definition self = Some d →
  name ≠ "type" → name ≠ "name" →
  StrawberryField.__setattr__ self name value σ
  = (inr (StrawberryField.mk (StrawberryField._field_definition self)
            (StrawberryField.name self) (StrawberryField.type self)
            (<[name := value]> (StrawberryField.attrs self))), σ).
Proof.
  intros Hd Hty Hnm. rewrite (__setattr___run _ _ _ _ d Hd).
  unfold assignment_raises, assigned, StrawberryField.object___setattr__.
  rewrite (bool_decide_eq_false_2 (name = "name")) by done.
  rewrite !andb_false_r. repeat case_decide; try done.
  by rewrite store_unchanged.
Qed.

Lemma __setattr___type self value σ d :
  definitions σ !! StrawberryField._field_definition self = Some d →
  StrawberryField.__setattr__ self "type" value σ
  = (inr (StrawberryField.mk (StrawberryField._field_definition self)
            (StrawberryField.name self) value (StrawberryField.attrs self)),
     mkStore (<[StrawberryField._field_definition self :=
                  FieldDefinition.set_type value d]> (definitions σ))
             (function_attrs σ)).
Proof.
  intros Hd. rewrite (__setattr___run _ _ _ _ d Hd).
  unfold assignment_raises, assigned, StrawberryField.object___setattr__.
  rewrite (bool_decide_eq_false_2 ("type" = "name")) by done.
  rewrite !andb_false_r. repeat case_decide; done.
Qed.

Lemma __setattr___name_falsy self value σ d :
  definitions σ !! StrawberryField._field_definition self = Some d →
  truthy value = false →
  StrawberryField.__setattr__ self "name" value σ
  = (inr (StrawberryField.mk (StrawberryField._field_definition self)
            value (StrawberryField.type self) (StrawberryField.attrs self)),
     σ).
Proof.
  intros Hd Hv. rewrite (__setattr___run _ _ _ _ d Hd).
  unfold assignment_raises, assigned, StrawberryField.object___setattr__.
  rewrite Hv. cbn [andb]. repeat case_decide; try done.
  by rewrite store_unchanged.
Qed.

Lemma __init___run l σ d :
  definitions σ !! l = Some d →
  StrawberryField.__init__ l σ
  = (inr (StrawberryField.mk l None_ None_
            (field_slots (Bool (is_None (FieldDefinition.base_resolver d))))),
     mkStore (<[l := FieldDefinition.set_type None_ d]> (definitions σ))
             (function_attrs σ)).
Proof.
  intros Hd. unfold StrawberryField.__init__, StrawberryField.Field___init__.
  run_statement.
  erewrite bind_returned; [|by eapply __setattr___name_falsy].
  erewrite bind_returned; [|by eapply __setattr___type].
  cbn [StrawberryField._field_definition StrawberryField.name
       StrawberryField.type StrawberryField.attrs].
  repeat (erewrite bind_returned;
          [|by eapply __setattr___other; [apply lookup_assigned|..]];
          cbn [StrawberryField._field_definition StrawberryField.name
               StrawberryField.type StrawberryField.attrs]).
  erewrite __setattr___other; [|apply lookup_assigned|done..].
  reflexivity.
Qed.

Lemma __init___dangling l σ :
  definitions σ !! l = None →
  StrawberryField.__init__ l σ = (inl ReferenceError, σ).
Proof.
  intros Hd. unfold StrawberryField.__init__.
  erewrite bind_raised; [done|]. by apply getattr_dangling.
Qed.

Lemma check_return_annotation_run l σ d :
  definitions σ !! l = Some d →
  check_return_annotation l σ
  = (match FieldDefinition.base_resolver d with
     | None => inl TypeError
     | Some f =>
         match typing.get_type_hints f with
         | inl e => inl e
         | inr hints =>
             match hints !! "return" with
             | None =>
                 inl (MissingReturnAnnotationError (FieldDefinition.name d))
             | Some _ => inr tt
             end
         end
     end, σ).
Proof.
  intros Hd. unfold check_return_annotation. do 2 run_statement.
  destruct (FieldDefinition.base_resolver d) as [f|]; [|done].
  destruct (typing.get_type_hints f) as [e|hints]; cbn [propagate].
  - by erewrite bind_raised.
  - run_statement. by destruct (hints !! "return").
Qed.

Lemma new_address_unused (m : gmap loc FieldDefinition.t) :
  m !! fresh (dom m) = None.
Proof. apply not_elem_of_dom, is_fresh. Qed.

Lemma field_None_run σ name is_subscription description permission_classes
    federation :
  field None name is_subscription description permission_classes federation σ
  = (inr (Binder (StrawberryField.mk (fresh (dom (definitions σ))) None_ None_
                    (field_slots (Bool true)))),
     mkStore (<[fresh (dom (definitions σ)) :=
                  constructed None None_ name is_subscription description
                    permission_classes [] federation]> (definitions σ))
             (function_attrs σ)).
Proof.
  unfold field. run_statement.
  erewrite bind_returned; [|reflexivity].
  erewrite bind_returned; [|by apply __init___run, lookup_assigned].
  cbn [definitions function_attrs]. by rewrite insert_insert_eq.
Qed.

Lemma field_Some_run σ resolver name is_subscription description
    permission_classes federation :
  field (Some resolver) name is_subscription description permission_classes
    federation σ
  = match get_arguments_from_resolver resolver (display_name resolver) with
    | inl e => (inl (Propagated e), σ)
    | inr arguments =>
        (match completion_outcome None_ resolver with
         | inl e => inl e
         | inr field_ => inr (Resolver field_)
         end,
         mkStore (<[fresh (dom (definitions σ)) :=
                      completed None_ resolver
                        (constructed (Some resolver) (display_name resolver)
                           (or_ name (display_name resolver)) is_subscription
                           description permission_classes arguments
                           federation)]> (definitions σ))
                 match completion_outcome None_ resolver with
                 | inl _ => function_attrs σ
                 | inr _ =>
                     <[Callable.id resolver := fresh (dom (definitions σ))]>
                       (function_attrs σ)
                 end)
    end.
Proof.
  unfold field. cbn zeta. fold (display_name resolver).
  destruct (get_arguments_from_resolver resolver (display_name resolver))
    as [e|arguments]; cbn [lift].
  - reflexivity.
  - erewrite bind_returned; [|reflexivity]. cbn beta iota.
    erewrite bind_returned; [|reflexivity].
    erewrite bind_returned; [|by apply __init___run, lookup_assigned].
    cbn [definitions function_attrs]. rewrite insert_insert_eq.
    unfold mbind, M_bind.
    erewrite __call___run; [|apply lookup_assigned].
    cbn [StrawberryField.name StrawberryField._field_definition
         definitions function_attrs].
    rewrite !insert_insert_eq.
    by destruct (completion_outcome None_ resolver).
Qed.

End running.

(** * Properties of the descriptor lifecycle *)

Section lifecycle.
Context `{Collaborators}.
Implicit Types (σ : Store) (self : StrawberryField.t) (d : FieldDefinition.t).
Implicit Types (resolver : Callable.t) (value : object).




Lemma descriptor_after_call self resolver σ d :
  descriptor self σ = Some d →
  descriptor self (final (StrawberryField.__call__ self resolver) σ)
  = Some (completed (StrawberryField.name self) resolver d).
Proof.
  intros Hd. unfold final, descriptor.
  rewrite (__call___run _ _ _ d Hd). apply lookup_insert_eq.
Qed.

Lemma outcome_of_call self resolver σ d :
  descriptor self σ = Some d →
  outcome (StrawberryField.__call__ self resolver) σ
  = completion_outcome (StrawberryField.name self) resolver.
Proof.
  intros Hd. unfold outcome. by rewrite (__call___run _ _ _ d Hd).
Qed.

(** The descriptor after [__call__]: the attributes assigned before the
    collaborator is called, those never assigned, and the arguments. *)
Lemma completed_fields label resolver d :
  FieldDefinition.origin_name (completed label resolver d)
  = display_name resolver
  ∧ FieldDefinition.name (completed label resolver d)
    = or_ (FieldDefinition.name d) (display_name resolver)
  ∧ FieldDefinition.origin (completed label resolver d) = Some resolver
  ∧ FieldDefinition.base_resolver (completed label resolver d)
    = FieldDefinition.base_resolver d
  ∧ FieldDefinition.description (completed label resolver d)
    = FieldDefinition.description d
  ∧ FieldDefinition.is_subscription (completed label resolver d)
    = FieldDefinition.is_subscription d
  ∧ FieldDefinition.permission_classes (completed label resolver d)
    = FieldDefinition.permission_classes d
  ∧ FieldDefinition.federation (completed label resolver d)
    = FieldDefinition.federation d.
Proof.
  unfold completed.
  destruct (get_arguments_from_resolver resolver label); [done|].
  by destruct (typing.get_type_hints resolver).
Qed.

Lemma completed_arguments label resolver d arguments :
  get_arguments_from_resolver resolver label = inr arguments →
  FieldDefinition.arguments (completed label resolver d) = arguments.
Proof.
  intros Hargs. unfold completed. rewrite Hargs.
  by destruct (typing.get_type_hints resolver).
Qed.


(** What the part of [__call__] before the collaborator assigns. *)
Lemma renamed_fields resolver d :
  FieldDefinition.origin_name (renamed resolver d) = display_name resolver
  ∧ FieldDefinition.name (renamed resolver d)
    = or_ (FieldDefinition.name d) (display_name resolver)
  ∧ FieldDefinition.origin (renamed resolver d) = Some resolver
  ∧ FieldDefinition.base_resolver (renamed resolver d)
    = FieldDefinition.base_resolver d.
Proof. done. Qed.

Lemma descriptor_after_assignment self name value σ d :
  descriptor self σ = Some d →
  descriptor self (final (StrawberryField.__setattr__ self name value) σ)
  = Some (assigned name value d).
Proof.
  intros Hd. unfold final, descriptor.
  rewrite (__setattr___run _ _ _ _ d Hd). apply lookup_insert_eq.
Qed.

Lemma binder_after_assignment self name value σ d self' σ' :
  descriptor self σ = Some d →
  StrawberryField.__setattr__ self name value σ = (inr self', σ') →
  StrawberryField._field_definition self'
  = StrawberryField._field_definition self.
Proof.
  intros Hd. rewrite (__setattr___run _ _ _ _ d Hd).
  destruct (assignment_raises name value d); [done|].
  intros [= <- _]. unfold StrawberryField.object___setattr__.
  by repeat case_decide.
Qed.

(** One operation, on a Binder whose descriptor is in the store. *)
Lemma perform_descriptor op self σ d :
  descriptor self σ = Some d →
  StrawberryField._field_definition (perform op (self, σ)).1
  = StrawberryField._field_definition self
  ∧ descriptor self (perform op (self, σ)).2
    = Some match op with
           | Assign a value => assigned (attr_str a) value d
           | Complete resolver =>
               completed (StrawberryField.name self) resolver d
           end.
Proof.
  intros Hd. destruct op as [a value|resolver]; cbn [perform fst snd].
  - pose proof (descriptor_after_assignment self (attr_str a) value σ d Hd)
      as Hafter.
    unfold final in Hafter.
    destruct (StrawberryField.__setattr__ self (attr_str a) value σ)
      as [[e|self'] σ'] eqn:Hrun; cbn [fst snd] in *; split; try done.
    exact (binder_after_assignment _ _ _ _ _ _ _ Hd Hrun).
  - split; [done|]. by apply descriptor_after_call.
Qed.

End lifecycle.

(** * The completion step *)

Section completion.
Context `{Collaborators}.
Implicit Types (σ : Store) (self : StrawberryField.t) (d : FieldDefinition.t).
Implicit Types (resolver : Callable.t) (value : object).

(** C1 (evaluation of the code): a Binder that [field] returns for a
    declaration without a resolver, once completed with a resolver, has a
    descriptor whose [origin] is the resolver and whose [base_resolver] is
    still [None]: [__call__] has no assignment to [base_resolver], so the
    completion step does not reach the state in which [base_resolver] is
    set. *)
Theorem completion_leaves_base_resolver_unset σ name is_subscription
    description permission_classes federation resolver :
  ∃ field_ σ' d,
    field None name is_subscription description permission_classes federation σ
    = (inr (Binder field_), σ')
    ∧ FieldDefinition.base_resolver <$> descriptor field_ σ' = Some None
    ∧ descriptor field_ (final (StrawberryField.__call__ field_ resolver) σ')
      = Some d
    ∧ FieldDefinition.origin d = Some resolver
    ∧ FieldDefinition.base_resolver d = None.
Proof.
  rewrite field_None_run.
  eexists _, _, _. split; [reflexivity|].
  assert (descriptor
            (StrawberryField.mk (fresh (dom (definitions σ))) None_ None_
               (field_slots (Bool true)))
            (mkStore
               (<[fresh (dom (definitions σ)) :=
                    constructed None None_ name is_subscription description
                      permission_classes [] federation]> (definitions σ))
               (function_attrs σ))
          = Some (constructed None None_ name is_subscription description
                    permission_classes [] federation)) as Hd
    by apply lookup_insert_eq.
  split; [by rewrite Hd|].
  split; [by apply descriptor_after_call|].
  destruct (completed_fields None_ resolver
              (constructed None None_ name is_subscription description
                 permission_classes [] federation))
    as (_ & _ & Horigin & Hbase & _).
  split; [exact Horigin|exact Hbase].
Qed.

(** C3: for every Binder whose descriptor is in the store and every
    resolver, after [__call__] the descriptor's [origin_name] is the
    case-converted [__name__] of the resolver, whatever it was before and
    whether or not the collaborator raises; in particular after an
    assignment [binder.name = value] that came in between. *)
Theorem completion_sets_origin_name self resolver σ d :
  descriptor self σ = Some d →
  FieldDefinition.origin_name
    <$> descriptor self (final (StrawberryField.__call__ self resolver) σ)
  = Some (Str (to_camel_case (Callable.__name__ resolver)))
  ∧ ∀ value,
      FieldDefinition.origin_name
        <$> descriptor self
              (perform_all [Assign attr_name value; Complete resolver]
                 (self, σ)).2
      = Some (Str (to_camel_case (Callable.__name__ resolver))).
Proof.
  intros Hd. split.
  - rewrite (descriptor_after_call _ _ _ d Hd). cbn.
    by rewrite (proj1 (completed_fields _ _ _)).
  - intros value. cbn [perform_all foldl].
    destruct (perform_descriptor (Assign attr_name value) self σ d Hd)
      as [Hself Hd'].
    destruct (perform (Assign attr_name value) (self, σ)) as [self' σ'].
    cbn [fst snd] in *.
    assert (descriptor self' σ' = Some (assigned "name" value d)) as Hd''
      by (unfold descriptor in *; by rewrite Hself).
    destruct (perform_descriptor (Complete resolver) self' σ' _ Hd'')
      as [_ Hdone].
    unfold descriptor in *. rewrite <- Hself, Hdone. cbn.
    by rewrite (proj1 (completed_fields _ _ _)).
Qed.

(** C5 (amended): for every descriptor whose [name] is a non-empty string,
    [__call__] leaves [name] as it is; for every descriptor whose [name] is
    [None], [__call__] sets [name] to the case-converted [__name__] of the
    resolver. *)
Theorem completion_keeps_nonempty_name self resolver σ d :
  descriptor self σ = Some d →
  ∃ d',
    descriptor self (final (StrawberryField.__call__ self resolver) σ) = Some d'
    ∧ (∀ s, FieldDefinition.name d = Str s → s ≠ "" →
         FieldDefinition.name d' = Str s)
    ∧ (FieldDefinition.name d = None_ →
         FieldDefinition.name d'
         = Str (to_camel_case (Callable.__name__ resolver))).
Proof.
  intros Hd. eexists. split; [by apply descriptor_after_call|].
  rewrite (proj1 (proj2 (completed_fields _ _ _))).
  split.
  - intros s -> Hs. unfold or_. cbn [truthy].
    by rewrite (proj2 (String.eqb_neq s "") Hs).
  - by intros ->.
Qed.

(** C9: for every descriptor whose [name] is the empty string, [__call__]
    replaces [name] with the case-converted [__name__] of the resolver; in
    general the [name] after [__call__] is the former one exactly when that
    one is true (a non-empty string), and the converted identifier
    otherwise. *)
Theorem completion_replaces_empty_name self resolver σ d :
  descriptor self σ = Some d →
  ∃ d',
    descriptor self (final (StrawberryField.__call__ self resolver) σ) = Some d'
    ∧ (FieldDefinition.name d = Str "" →
         FieldDefinition.name d'
         = Str (to_camel_case (Callable.__name__ resolver)))
    ∧ FieldDefinition.name d'
      = if truthy (FieldDefinition.name d) then FieldDefinition.name d
        else Str (to_camel_case (Callable.__name__ resolver)).
Proof.
  intros Hd. eexists. split; [by apply descriptor_after_call|].
  rewrite (proj1 (proj2 (completed_fields _ _ _))).
  split; [by intros ->|done].
Qed.

End completion.

(** * Assignments to the Binder *)

Section assignments.
Context `{Collaborators}.
Implicit Types (σ : Store) (self : StrawberryField.t) (d : FieldDefinition.t).
Implicit Types (resolver : Callable.t) (value : object).

Lemma assigned_keeps_origin_name name value d :
  truthy (FieldDefinition.origin_name d) = true →
  FieldDefinition.origin_name (assigned name value d)
  = FieldDefinition.origin_name d.
Proof.
  intros Hon. unfold assigned. case_decide; [done|].
  destruct (truthy value && bool_decide (name = "name")); [|done].
  cbn [FieldDefinition.origin_name]. by rewrite Hon.
Qed.

Lemma assigned_keeps_name name value d :
  truthy (FieldDefinition.name d) = true →
  FieldDefinition.name (assigned name value d) = FieldDefinition.name d.
Proof.
  intros Hnm. unfold assigned. case_decide; [done|].
  destruct (truthy value && bool_decide (name = "name")); [|done].
  cbn [FieldDefinition.name]. by rewrite Hnm.
Qed.

Lemma truthy_Str s : s ≠ "" → truthy (Str s) = true.
Proof. intros Hs. cbn. by rewrite (proj2 (String.eqb_neq s "") Hs). Qed.

(** C6 (amended): for every non-empty string [s], the assignment
    [binder.name = s] returns, leaves [s] in the Binder's own [name], and on
    the descriptor: when [origin_name] and [name] are both [None] it sets
    [origin_name] to [s] as written and [name] to the case-converted [s]; an
    [origin_name] or a [name] that is true (a non-empty string) is left as
    it is. *)
Theorem name_assignment_fills_unset_names self s σ d :
  descriptor self σ = Some d → s ≠ "" →
  ∃ self' d',
    outcome (StrawberryField.__setattr__ self "name" (Str s)) σ = inr self'
    ∧ StrawberryField.name self' = Str s
    ∧ descriptor self
        (final (StrawberryField.__setattr__ self "name" (Str s)) σ) = Some d'
    ∧ (FieldDefinition.origin_name d = None_ → FieldDefinition.name d = None_ →
         FieldDefinition.origin_name d' = Str s
         ∧ FieldDefinition.name d' = Str (to_camel_case s))
    ∧ (truthy (FieldDefinition.origin_name d) = true →
         FieldDefinition.origin_name d' = FieldDefinition.origin_name d)
    ∧ (truthy (FieldDefinition.name d) = true →
         FieldDefinition.name d' = FieldDefinition.name d).
Proof.
  intros Hd Hs. unfold outcome, final, descriptor in *.
  rewrite (__setattr___run _ _ _ _ d Hd). cbn [fst snd].
  assert (assignment_raises "name" (Str s) d = false) as ->.
  { unfold assignment_raises. apply andb_false_r. }
  eexists _, (assigned "name" (Str s) d).
  split; [done|].
  unfold StrawberryField.object___setattr__.
  rewrite decide_True by done.
  cbn [StrawberryField.name StrawberryField._field_definition definitions].
  split; [done|]. split; [apply lookup_insert_eq|].
  split; [|split].
  - intros Hon Hnm. unfold assigned.
    rewrite decide_False by done.
    rewrite truthy_Str, bool_decide_eq_true_2 by done.
    cbn [andb FieldDefinition.origin_name FieldDefinition.name].
    by rewrite Hon, Hnm.
  - apply assigned_keeps_origin_name.
  - apply assigned_keeps_name.
Qed.

(** C2 (amended): for every descriptor whose [origin_name] is true (a
    non-empty string) and every sequence of assignments to the intercepted
    attributes [type] and [name] of its Binder, whatever the values, the
    descriptor's [origin_name] after the sequence is the one before it;
    [__call__] is the operation that overwrites it, with the case-converted
    [__name__] of the resolver. *)
Theorem origin_name_kept_by_assignments
    (writes : list (intercepted * object)) self σ d :
  descriptor self σ = Some d →
  truthy (FieldDefinition.origin_name d) = true →
  FieldDefinition.origin_name
    <$> descriptor self
          (perform_all ((λ w, Assign w.1 w.2) <$> writes) (self, σ)).2
  = Some (FieldDefinition.origin_name d)
  ∧ ∀ resolver,
      FieldDefinition.origin_name
        <$> descriptor self (perform (Complete resolver) (self, σ)).2
      = Some (Str (to_camel_case (Callable.__name__ resolver))).
Proof.
  intros Hd Hon. split.
  - revert self σ d Hd Hon.
    induction writes as [|[a value] writes IH]; intros self σ d Hd Hon.
    + cbn. by rewrite Hd.
    + cbn [fmap list_fmap perform_all foldl fst snd].
      destruct (perform_descriptor (Assign a value) self σ d Hd)
        as [Hself Hd'].
      destruct (perform (Assign a value) (self, σ)) as [self' σ'] eqn:Hstep.
      cbn [fst snd] in *.
      assert (descriptor self' σ' = Some (assigned (attr_str a) value d))
        as Hd'' by (unfold descriptor in *; by rewrite Hself).
      pose proof (IH self' σ' _ Hd''
                    (eq_trans (f_equal truthy
                                 (assigned_keeps_origin_name _ _ _ Hon)) Hon))
        as Hrest.
      unfold perform_all in Hrest. unfold descriptor in *.
      rewrite <- Hself, Hrest.
      by rewrite assigned_keeps_origin_name.
  - intros resolver.
    destruct (perform_descriptor (Complete resolver) self σ d Hd) as [_ ->].
    cbn. by rewrite (proj1 (completed_fields _ _ _)).
Qed.

End assignments.

(** * Validation, construction and the Binder's init flag *)

Section construction.
Context `{Collaborators}.
Implicit Types (σ : Store) (self : StrawberryField.t) (d : FieldDefinition.t).
Implicit Types (resolver : Callable.t) (value : object).


(** C8: for every call of [field] without a resolver, in every store, the
    call returns the Binder (not a resolver); the Binder's descriptor is a
    new instance whose [arguments] are empty, whose [origin_name] and
    [base_resolver] are [None], and whose [name] is the object passed as
    [name], as it is ([None] when none was passed). *)
Theorem field_without_resolver σ name is_subscription description
    permission_classes federation :
  ∃ field_ d,
    outcome (field None name is_subscription description permission_classes
               federation) σ
    = inr (Binder field_)
    ∧ descriptor field_ σ = None
    ∧ descriptor field_
        (final (field None name is_subscription description permission_classes
                  federation) σ)
      = Some d
    ∧ FieldDefinition.arguments d = []
    ∧ FieldDefinition.origin_name d = None_
    ∧ FieldDefinition.base_resolver d = None
    ∧ FieldDefinition.name d = name.
Proof.
  unfold outcome, final. rewrite field_None_run. cbn [fst snd].
  eexists _, _. split; [reflexivity|].
  split; [apply new_address_unused|].
  split; [apply lookup_insert_eq|]. done.
Qed.

(** C10: for every descriptor in the store, [__init__] returns a Binder of
    that descriptor whose slot [init] is the truth value of
    [base_resolver is None], and whose slots [default], [default_factory],
    [repr], [hash], [compare] and [metadata] are [MISSING], [MISSING],
    [True], [None], [True] and the empty mapping that [dataclasses.Field]
    stores for [metadata=None], whatever the descriptor. *)
Theorem binder_init_flag (field_definition : loc) σ d :
  definitions σ !! field_definition = Some d →
  ∃ self,
    outcome (StrawberryField.__init__ field_definition) σ = inr self
    ∧ StrawberryField._field_definition self = field_definition
    ∧ StrawberryField.attrs self !! "init"
      = Some (Bool (is_None (FieldDefinition.base_resolver d)))
    ∧ StrawberryField.attrs self !! "default" = Some MISSING
    ∧ StrawberryField.attrs self !! "default_factory" = Some MISSING
    ∧ StrawberryField.attrs self !! "repr" = Some (Bool true)
    ∧ StrawberryField.attrs self !! "hash" = Some None_
    ∧ StrawberryField.attrs self !! "compare" = Some (Bool true)
    ∧ StrawberryField.attrs self !! "metadata" = Some (MappingProxy []).
Proof.
  intros Hd. unfold outcome. rewrite (__init___run _ _ d Hd). cbn [fst].
  eexists. split; [reflexivity|].
  cbn [StrawberryField._field_definition StrawberryField.attrs].
  unfold field_slots. repeat split; by simplify_map_eq.
Qed.

(** C4 (evaluation of the code): [field] with a resolver calls the
    argument-extraction collaborator twice, at line 100 with the
    case-converted [__name__] of the resolver and in the completion step
    with the Binder's own attribute [name], which is [None] on the Binder
    that [__init__] has just built, although the descriptor's [name] is set
    by then; the [arguments] that the descriptor ends with are the result
    of the second call. *)
Theorem completion_passes_binder_name σ resolver name is_subscription
    description permission_classes federation :
  outcome (field (Some resolver) name is_subscription description
             permission_classes federation) σ
  = match get_arguments_from_resolver resolver
            (Str (to_camel_case (Callable.__name__ resolver))) with
    | inl e => inl (Propagated e)
    | inr _ =>
        match get_arguments_from_resolver resolver None_ with
        | inl e => inl (Propagated e)
        | inr _ =>
            match typing.get_type_hints resolver with
            | inl e => inl e
            | inr _ =>
                if Callable.has_dict resolver then inr (Resolver resolver)
                else inl AttributeError
            end
        end
    end
  ∧ ∀ arguments arguments',
      get_arguments_from_resolver resolver
        (Str (to_camel_case (Callable.__name__ resolver))) = inr arguments →
      get_arguments_from_resolver resolver None_ = inr arguments' →
      ∃ d,
        definitions
          (final (field (Some resolver) name is_subscription description
                    permission_classes federation) σ)
        !! fresh (dom (definitions σ)) = Some d
        ∧ FieldDefinition.arguments d = arguments'
        ∧ FieldDefinition.name d
          = or_ (or_ name (Str (to_camel_case (Callable.__name__ resolver))))
                (Str (to_camel_case (Callable.__name__ resolver)))
        ∧ FieldDefinition.base_resolver d = Some resolver.
Proof.
  unfold outcome, final. rewrite field_Some_run. unfold display_name.
  split.
  - destruct (get_arguments_from_resolver resolver (Str _)); [done|].
    cbn [fst]. unfold completion_outcome.
    destruct (get_arguments_from_resolver resolver None_); [done|].
    destruct (typing.get_type_hints resolver); [done|].
    by destruct (Callable.has_dict resolver).
  - intros arguments arguments' -> Hsecond. cbn [snd definitions].
    eexists. split; [apply lookup_insert_eq|].
    split; [by apply completed_arguments|].
    destruct (completed_fields None_ resolver
                (constructed (Some resolver)
                   (Str (to_camel_case (Callable.__name__ resolver)))
                   (or_ name (Str (to_camel_case (Callable.__name__ resolver))))
                   is_subscription description permission_classes arguments
                   federation))
      as (_ & Hname & _ & Hbase & _).
    split; [exact Hname|exact Hbase].
Qed.

End construction.

(** * Further properties of the code *)

Section further.
Context `{Collaborators}.
Implicit Types (σ : Store) (self : StrawberryField.t) (d : FieldDefinition.t).
Implicit Types (resolver : Callable.t) (value : object).

Lemma assigned_keeps_base_resolver name value d :
  FieldDefinition.base_resolver (assigned name value d)
  = FieldDefinition.base_resolver d.
Proof.
  unfold assigned. case_decide; [done|].
  by destruct (truthy value && bool_decide (name = "name")).
Qed.

(** X1: no operation on a Binder (an assignment to [type] or [name], a
    completion) changes the [base_resolver] of its descriptor; what [field]
    stored there at construction stays, through every sequence of
    operations. *)
Theorem operations_keep_base_resolver (ops : list operation) self σ d :
  descriptor self σ = Some d →
  FieldDefinition.base_resolver
    <$> descriptor self (perform_all ops (self, σ)).2
  = Some (FieldDefinition.base_resolver d).
Proof.
  revert self σ d. induction ops as [|op ops IH]; intros self σ d Hd.
  - cbn. by rewrite Hd.
  - cbn [perform_all foldl].
    destruct (perform_descriptor op self σ d Hd) as [Hself Hd'].
    destruct (perform op (self, σ)) as [self' σ'].
    cbn [fst snd] in *.
    assert (descriptor self' σ' = descriptor self σ') as Hsame
      by (unfold descriptor; by rewrite Hself).
    rewrite <- Hsame in Hd'.
    pose proof (IH self' σ' _ Hd') as Hrest.
    unfold perform_all in Hrest. unfold descriptor in *.
    rewrite <- Hself, Hrest. f_equal.
    destruct op as [a value|resolver].
    + apply assigned_keeps_base_resolver.
    + by destruct (completed_fields (StrawberryField.name self) resolver d)
        as (_ & _ & _ & -> & _).
Qed.

(** X2: an operation on a Binder writes to its own descriptor only: every
    other descriptor of the store is as before. *)
Theorem operations_leave_other_descriptors op self σ d (l : loc) :
  descriptor self σ = Some d →
  l ≠ StrawberryField._field_definition self →
  definitions (perform op (self, σ)).2 !! l = definitions σ !! l.
Proof.
  intros Hd Hl. destruct op as [a value|resolver]; cbn [perform fst snd].
  - rewrite (__setattr___run _ _ _ _ d Hd).
    destruct (assignment_raises (attr_str a) value d); cbn [snd definitions];
      by rewrite lookup_insert_ne.
  - unfold final. rewrite (__call___run _ _ _ d Hd). cbn [snd definitions].
    by rewrite lookup_insert_ne.
Qed.

(** X3: an assignment [binder.type = value] returns, stores [value] in the
    Binder's own [type] and in the [type] of the descriptor, and leaves the
    other attributes of the descriptor as they are. *)
Theorem type_assignment_mirrored self value σ d :
  descriptor self σ = Some d →
  ∃ self',
    outcome (StrawberryField.__setattr__ self "type" value) σ = inr self'
    ∧ StrawberryField.type self' = value
    ∧ descriptor self (final (StrawberryField.__setattr__ self "type" value) σ)
      = Some (FieldDefinition.set_type value d).
Proof.
  intros Hd. unfold outcome, final, descriptor in *.
  rewrite (__setattr___type _ _ _ d Hd). cbn [fst snd definitions].
  eexists. split; [reflexivity|]. split; [done|apply lookup_insert_eq].
Qed.

(** X4: constructing a Binder around a descriptor resets the descriptor's
    [type] to [None]: [dataclasses.Field.__init__] assigns [self.type =
    None], and [__setattr__] forwards every assignment to [type]. *)
Theorem binder_construction_resets_type (field_definition : loc) σ d :
  definitions σ !! field_definition = Some d →
  definitions (final (StrawberryField.__init__ field_definition) σ)
    !! field_definition
  = Some (FieldDefinition.set_type None_ d).
Proof.
  intros Hd. unfold final. rewrite (__init___run _ _ d Hd).
  apply lookup_insert_eq.
Qed.

(** X5: [field] with a resolver and no explicit name, when both calls of
    the collaborator return, the annotations of the resolver all resolve
    and the resolver takes attributes (a function defined with [def]): the
    call returns the resolver, which now refers to the new descriptor; the
    descriptor's [origin_name] and [name] are the case-converted
    [__name__], its [origin] and [base_resolver] the resolver, its [type] the
    return annotation, and its [arguments] what the collaborator
    returned. *)
Theorem field_with_resolver σ resolver is_subscription description
    permission_classes federation arguments arguments' hints :
  get_arguments_from_resolver resolver
    (Str (to_camel_case (Callable.__name__ resolver))) = inr arguments →
  get_arguments_from_resolver resolver None_ = inr arguments' →
  typing.get_type_hints resolver = inr hints →
  Callable.has_dict resolver = true →
  ∃ (l : loc) d,
    outcome (field (Some resolver) None_ is_subscription description
               permission_classes federation) σ
    = inr (Resolver resolver)
    ∧ definitions σ !! l = None
    ∧ definitions
        (final (field (Some resolver) None_ is_subscription description
                  permission_classes federation) σ) !! l = Some d
    ∧ function_attrs
        (final (field (Some resolver) None_ is_subscription description
                  permission_classes federation) σ) !! Callable.id resolver
      = Some l
    ∧ FieldDefinition.origin_name d
      = Str (to_camel_case (Callable.__name__ resolver))
    ∧ FieldDefinition.name d
      = Str (to_camel_case (Callable.__name__ resolver))
    ∧ FieldDefinition.origin d = Some resolver
    ∧ FieldDefinition.base_resolver d = Some resolver
    ∧ FieldDefinition.type d
      = match hints !! "return" with
        | Some t => Type_ t
        | None => None_
        end
    ∧ FieldDefinition.arguments d = arguments'.
Proof.
  intros Hfirst Hsecond Hhints Hdict. unfold outcome, final.
  rewrite field_Some_run. unfold display_name, completion_outcome, completed.
  rewrite Hfirst, Hsecond, Hhints, Hdict.
  cbn [fst snd definitions function_attrs].
  eexists _, _. split; [reflexivity|].
  split; [apply new_address_unused|].
  split; [apply lookup_insert_eq|].
  split; [apply lookup_insert_eq|].
  cbn. unfold or_. cbn [truthy]. repeat split.
  by destruct (negb _).
Qed.

End further.

(** * Errors, edge cases and composition *)

Section edges.
Context `{Collaborators}.
Implicit Types (σ : Store) (self : StrawberryField.t) (d : FieldDefinition.t).
Implicit Types (resolver : Callable.t) (value : object).

Lemma check_return_annotation_dangling (l : loc) σ :
  definitions σ !! l = None →
  check_return_annotation l σ = (inl ReferenceError, σ).
Proof.
  intros Hd. unfold check_return_annotation.
  erewrite bind_raised; [done|]. by apply getattr_dangling.
Qed.

(** X6: [check_return_annotation] only reads: whatever it returns or
    raises, the store after it is the store before it; on a descriptor whose
    [base_resolver] is [None] it raises [TypeError], not
    [MissingReturnAnnotationError]. *)
Theorem check_return_annotation_reads_only (field_definition : loc) σ :
  final (check_return_annotation field_definition) σ = σ
  ∧ ∀ d,
      definitions σ !! field_definition = Some d →
      FieldDefinition.base_resolver d = None →
      outcome (check_return_annotation field_definition) σ = inl TypeError.
Proof.
  unfold final, outcome. split.
  - destruct (definitions σ !! field_definition) as [d|] eqn:Hd.
    + by rewrite (check_return_annotation_run _ _ d Hd).
    + by rewrite check_return_annotation_dangling.
  - intros d Hd Hnone.
    by rewrite (check_return_annotation_run _ _ d Hd), Hnone.
Qed.

(** X7: a field declared without a resolver and completed through
    [__call__] cannot be validated: [check_return_annotation] on its
    descriptor raises [TypeError] for every resolver, with or without a
    return annotation, because the completion has left [base_resolver] at
    [None]. *)
Theorem validation_after_completion_raises_TypeError σ name is_subscription
    description permission_classes federation resolver :
  ∃ field_ σ',
    field None name is_subscription description permission_classes federation σ
    = (inr (Binder field_), σ')
    ∧ outcome
        (check_return_annotation (StrawberryField._field_definition field_))
        (final (StrawberryField.__call__ field_ resolver) σ')
      = inl TypeError.
Proof.
  rewrite field_None_run. eexists _, _. split; [reflexivity|].
  set (field_ := StrawberryField.mk _ _ _ _).
  set (σ' := mkStore _ _).
  assert (descriptor field_ σ'
          = Some (constructed None None_ name is_subscription description
                    permission_classes [] federation)) as Hd
    by apply lookup_insert_eq.
  pose proof (descriptor_after_call field_ resolver σ' _ Hd) as Hafter.
  unfold outcome.
  rewrite (check_return_annotation_run _ _ _ Hafter).
  by destruct (completed_fields (StrawberryField.name field_) resolver
                 (constructed None None_ name is_subscription description
                    permission_classes [] federation))
    as (_ & _ & _ & -> & _).
Qed.

(** X8: an assignment of a false value ([None], the empty string, [False])
    to the Binder's [name] returns, stores the value in the Binder's own
    [name] and leaves the store, and so the descriptor, untouched. *)
Theorem false_name_assignment_skips_descriptor self value σ d :
  descriptor self σ = Some d →
  truthy value = false →
  ∃ self',
    StrawberryField.__setattr__ self "name" value σ = (inr self', σ)
    ∧ StrawberryField.name self' = value
    ∧ StrawberryField._field_definition self'
      = StrawberryField._field_definition self.
Proof.
  intros Hd Hfalse. rewrite (__setattr___name_falsy _ _ _ d Hd Hfalse).
  by eexists.
Qed.

(** X9: an assignment to an attribute that the Binder stores as given (a
    slot of [dataclasses.Field] other than [name] and [type], or a name kept
    in its [__dict__]: not [_field_definition], and not a name of the form
    [__x__]) passes through: it returns, keeps the value under that
    attribute name, leaves the Binder's [name], [type] and descriptor
    address as they are and does not touch the store, whether or not the
    descriptor is there. *)
Theorem other_assignment_passes_through self (name : string) value σ :
  plain_attribute name = true →
  ∃ self',
    StrawberryField.__setattr__ self name value σ = (inr self', σ)
    ∧ StrawberryField.attrs self' !! name = Some value
    ∧ StrawberryField.name self' = StrawberryField.name self
    ∧ StrawberryField.type self' = StrawberryField.type self
    ∧ StrawberryField._field_definition self'
      = StrawberryField._field_definition self.
Proof.
  intros Hplain. apply andb_prop in Hplain as [Hnames _].
  apply negb_true_iff, bool_decide_eq_false in Hnames.
  assert (name ≠ "type") as Hty by (intros ->; apply Hnames; set_solver).
  assert (name ≠ "name") as Hnm by (intros ->; apply Hnames; set_solver).
  unfold StrawberryField.__setattr__.
  rewrite decide_False by done.
  rewrite (bool_decide_eq_false_2 (name = "name")) by done.
  rewrite andb_false_r. cbn beta iota.
  unfold StrawberryField.object___setattr__.
  rewrite !decide_False by done.
  eexists. split; [reflexivity|].
  cbn. by rewrite lookup_insert_eq.
Qed.

Lemma or_absorbs (x y : object) : or_ (or_ x y) y = or_ x y.
Proof. unfold or_. by destruct (truthy x) eqn:Hx; [rewrite Hx|destruct (truthy y)]. Qed.

Lemma renamed_twice resolver d :
  renamed resolver (renamed resolver d) = renamed resolver d.
Proof. unfold renamed. cbn. by rewrite or_absorbs. Qed.

Lemma completed_twice label resolver d :
  completed label resolver (completed label resolver d)
  = completed label resolver d.
Proof.
  unfold completed.
  destruct (get_arguments_from_resolver resolver label);
    [apply renamed_twice|].
  destruct (typing.get_type_hints resolver);
    unfold renamed; cbn; by rewrite or_absorbs.
Qed.

(** X10: completing a Binder twice with the same resolver is the same as
    completing it once: the same outcome and the same store, descriptor and
    back-reference included, whether the collaborator returns or raises. *)
Theorem completion_is_idempotent self resolver σ d :
  descriptor self σ = Some d →
  StrawberryField.__call__ self resolver
    (final (StrawberryField.__call__ self resolver) σ)
  = StrawberryField.__call__ self resolver σ.
Proof.
  intros Hd.
  pose proof (descriptor_after_call self resolver σ d Hd) as Hafter.
  rewrite (__call___run _ _ _ _ Hafter).
  unfold final. rewrite (__call___run _ _ _ d Hd).
  cbn [snd definitions function_attrs].
  rewrite insert_insert_eq, completed_twice.
  destruct (completion_outcome (StrawberryField.name self) resolver);
    by rewrite ?insert_insert_eq.
Qed.

(** X11: a second completion, with another resolver, replaces [origin_name]
    and [origin] but not a [name] that the first completion has set: when
    [name] was [None] and the first resolver's converted identifier is not
    empty, the descriptor ends with the first resolver's identifier as
    [name] and the second resolver's as [origin_name]. *)
Theorem second_completion_keeps_first_name self resolver resolver' σ d :
  descriptor self σ = Some d →
  FieldDefinition.name d = None_ →
  to_camel_case (Callable.__name__ resolver) ≠ "" →
  ∃ d',
    descriptor self
      (perform_all [Complete resolver; Complete resolver'] (self, σ)).2
    = Some d'
    ∧ FieldDefinition.name d'
      = Str (to_camel_case (Callable.__name__ resolver))
    ∧ FieldDefinition.origin_name d'
      = Str (to_camel_case (Callable.__name__ resolver'))
    ∧ FieldDefinition.origin d' = Some resolver'.
Proof.
  intros Hd Hname Hfirst. cbn [perform_all foldl perform fst snd].
  pose proof (descriptor_after_call self resolver σ d Hd) as Hafter.
  pose proof (descriptor_after_call self resolver' _ _ Hafter) as Hafter'.
  eexists. split; [exact Hafter'|].
  destruct (completed_fields (StrawberryField.name self) resolver' 
              (completed (StrawberryField.name self) resolver d))
    as (Horigin_name & Hname' & Horigin & _).
  destruct (completed_fields (StrawberryField.name self) resolver d)
    as (_ & Hname1 & _).
  split; [|by split].
  rewrite Hname', Hname1, Hname. unfold or_, display_name. cbn [truthy].
  by rewrite (proj2 (String.eqb_neq _ "") Hfirst).
Qed.

(** X12: a completion whose collaborator raises propagates the exception
    and leaves the descriptor half updated: [name], [origin_name] and
    [origin] are already assigned, [arguments] and [type] are the old ones,
    and the resolver has received no back-reference. *)
Theorem failed_completion_is_partial self resolver σ d e :
  descriptor self σ = Some d →
  get_arguments_from_resolver resolver (StrawberryField.name self) = inl e →
  ∃ d',
    outcome (StrawberryField.__call__ self resolver) σ = inl (Propagated e)
    ∧ descriptor self (final (StrawberryField.__call__ self resolver) σ)
      = Some d'
    ∧ FieldDefinition.origin_name d'
      = Str (to_camel_case (Callable.__name__ resolver))
    ∧ FieldDefinition.name d'
      = or_ (FieldDefinition.name d)
            (Str (to_camel_case (Callable.__name__ resolver)))
    ∧ FieldDefinition.origin d' = Some resolver
    ∧ FieldDefinition.arguments d' = FieldDefinition.arguments d
    ∧ FieldDefinition.type d' = FieldDefinition.type d
    ∧ function_attrs (final (StrawberryField.__call__ self resolver) σ)
      = function_attrs σ.
Proof.
  intros Hd He. unfold outcome, final, descriptor in *.
  rewrite (__call___run _ _ _ d Hd). unfold completion_outcome, completed.
  rewrite He. cbn [fst snd definitions function_attrs].
  eexists. split; [done|]. split; [apply lookup_insert_eq|]. done.
Qed.

(** X13: a completion whose collaborator returns, for a resolver whose
    annotations all resolve and that takes attributes (a function defined
    with [def]), gives back the resolver it was given and installs on it a
    reference to the Binder's own descriptor, so that Binder and resolver
    share one descriptor; the attributes of every other function are left
    as they are.  For a resolver that takes no attributes (a bound method,
    a builtin) the assignment at line 54 raises [AttributeError] and no
    function has received a reference. *)
Theorem completion_shares_descriptor self resolver σ d arguments hints :
  descriptor self σ = Some d →
  get_arguments_from_resolver resolver (StrawberryField.name self)
  = inr arguments →
  typing.get_type_hints resolver = inr hints →
  (Callable.has_dict resolver = true →
     outcome (StrawberryField.__call__ self resolver) σ = inr resolver
     ∧ function_attrs (final (StrawberryField.__call__ self resolver) σ)
         !! Callable.id resolver
       = Some (StrawberryField._field_definition self)
     ∧ ∀ f : positive,
         f ≠ Callable.id resolver →
         function_attrs (final (StrawberryField.__call__ self resolver) σ) !! f
         = function_attrs σ !! f)
  ∧ (Callable.has_dict resolver = false →
       outcome (StrawberryField.__call__ self resolver) σ = inl AttributeError
       ∧ function_attrs (final (StrawberryField.__call__ self resolver) σ)
         = function_attrs σ).
Proof.
  intros Hd Hargs Hhints. unfold outcome, final.
  rewrite (__call___run _ _ _ d Hd). unfold completion_outcome.
  rewrite Hargs, Hhints. cbn [fst snd function_attrs].
  split; intros ->; cbn [function_attrs]; [|done].
  split; [done|]. split; [apply lookup_insert_eq|].
  intros f Hf. by rewrite lookup_insert_ne.
Qed.

(** X14: [field] with a resolver and an explicit non-empty [name], when
    the first call of the collaborator returns: the new descriptor's [name]
    is the explicit one, unconverted, through construction and completion,
    while [origin_name] is the case-converted [__name__] of the resolver,
    whether the completion then returns or raises; [field] returns the
    resolver when the second call of the collaborator returns as well, the
    annotations of the resolver all resolve and the resolver takes
    attributes. *)
Theorem field_with_resolver_and_name σ resolver s is_subscription description
    permission_classes federation arguments :
  s ≠ "" →
  get_arguments_from_resolver resolver
    (Str (to_camel_case (Callable.__name__ resolver))) = inr arguments →
  ∃ d,
    definitions
      (final (field (Some resolver) (Str s) is_subscription description
                permission_classes federation) σ)
      !! fresh (dom (definitions σ)) = Some d
    ∧ FieldDefinition.name d = Str s
    ∧ FieldDefinition.origin_name d
      = Str (to_camel_case (Callable.__name__ resolver))
    ∧ ∀ arguments' hints,
        get_arguments_from_resolver resolver None_ = inr arguments' →
        typing.get_type_hints resolver = inr hints →
        Callable.has_dict resolver = true →
        outcome (field (Some resolver) (Str s) is_subscription description
                   permission_classes federation) σ
        = inr (Resolver resolver).
Proof.
  intros Hs Hfirst. unfold outcome, final.
  rewrite field_Some_run. unfold display_name. rewrite Hfirst.
  cbn [fst snd definitions].
  eexists. split; [apply lookup_insert_eq|].
  destruct (completed_fields None_ resolver
              (constructed (Some resolver)
                 (Str (to_camel_case (Callable.__name__ resolver)))
                 (or_ (Str s) (Str (to_camel_case (Callable.__name__ resolver))))
                 is_subscription description permission_classes arguments
                 federation))
    as (Horigin_name & Hname & _).
  split; [|split; [exact Horigin_name|]].
  - rewrite Hname. cbn. unfold or_. cbn [truthy].
    rewrite (proj2 (String.eqb_neq s "") Hs). cbn [negb truthy].
    by rewrite (proj2 (String.eqb_neq s "") Hs).
  - intros arguments' hints Hsecond Hhints Hdict. unfold completion_outcome.
    by rewrite Hsecond, Hhints, Hdict.
Qed.

(** X15: when the collaborator raises at the first call, [field] with a
    resolver raises the same exception before it has constructed anything:
    the store is as before, with no new descriptor and no back-reference. *)
Theorem field_raises_before_construction σ resolver name is_subscription
    description permission_classes federation e :
  get_arguments_from_resolver resolver
    (Str (to_camel_case (Callable.__name__ resolver))) = inl e →
  field (Some resolver) name is_subscription description permission_classes
    federation σ
  = (inl (Propagated e), σ).
Proof.
  intros He. rewrite field_Some_run. unfold display_name. by rewrite He.
Qed.

(** X16: [field] never touches a descriptor that is already in the store:
    with or without a resolver, and whether it returns or raises, every
    descriptor of the store before the call is there, unchanged, after
    it. *)
Theorem field_keeps_existing_descriptors σ (resolver : option Callable.t) name
    is_subscription description permission_classes federation (l : loc) d :
  definitions σ !! l = Some d →
  definitions
    (final (field resolver name is_subscription description permission_classes
              federation) σ) !! l
  = Some d.
Proof.
  intros Hd.
  assert (fresh (dom (definitions σ)) ≠ l) as Hfresh.
  { intros <-. by rewrite new_address_unused in Hd. }
  unfold final. destruct resolver as [r|].
  - rewrite field_Some_run.
    destruct (get_arguments_from_resolver r (display_name r)); [done|].
    cbn [snd definitions]. by rewrite lookup_insert_ne.
  - rewrite field_None_run. cbn [snd definitions].
    by rewrite lookup_insert_ne.
Qed.

Lemma perform_keeps_configuration op self σ d :
  descriptor self σ = Some d →
  ∃ d',
    descriptor self (perform op (self, σ)).2 = Some d'
    ∧ FieldDefinition.description d' = FieldDefinition.description d
    ∧ FieldDefinition.is_subscription d' = FieldDefinition.is_subscription d
    ∧ FieldDefinition.permission_classes d'
      = FieldDefinition.permission_classes d
    ∧ FieldDefinition.federation d' = FieldDefinition.federation d.
Proof.
  intros Hd. destruct (perform_descriptor op self σ d Hd) as [_ Hd'].
  eexists. split; [exact Hd'|].
  destruct op as [a value|resolver].
  - unfold assigned. case_decide; [done|].
    by destruct (truthy value && bool_decide (attr_str a = "name")).
  - by destruct (completed_fields (StrawberryField.name self) resolver d)
      as (_ & _ & _ & _ & -> & -> & -> & ->).
Qed.

(** X17: the configuration that [field] stores at construction
    ([description], [is_subscription], [permission_classes], [federation])
    is never written again: it is the same after every sequence of
    assignments and completions. *)
Theorem operations_keep_configuration (ops : list operation) self σ d :
  descriptor self σ = Some d →
  ∃ d',
    descriptor self (perform_all ops (self, σ)).2 = Some d'
    ∧ FieldDefinition.description d' = FieldDefinition.description d
    ∧ FieldDefinition.is_subscription d' = FieldDefinition.is_subscription d
    ∧ FieldDefinition.permission_classes d'
      = FieldDefinition.permission_classes d
    ∧ FieldDefinition.federation d' = FieldDefinition.federation d.
Proof.
  revert self σ d. induction ops as [|op ops IH]; intros self σ d Hd.
  - by exists d.
  - cbn [perform_all foldl].
    destruct (perform_keeps_configuration op self σ d Hd)
      as (d1 & Hd1 & Hdesc & Hsub & Hperm & Hfed).
    destruct (perform_descriptor op self σ d Hd) as [Hself _].
    destruct (perform op (self, σ)) as [self' σ'].
    cbn [fst snd] in *.
    assert (descriptor self' σ' = Some d1) as Hd1'
      by (unfold descriptor in *; by rewrite Hself).
    destruct (IH self' σ' d1 Hd1') as (d' & Hd' & Hdesc' & Hsub' & Hperm' & Hfed').
    exists d'. unfold perform_all, descriptor in *.
    rewrite <- Hself. split; [exact Hd'|]. by repeat split; etrans.
Qed.

(** X18: the label that the completion passes to the collaborator is the
    value last assigned to the Binder's [name], as written: after
    [binder.name = s] the descriptor's [arguments] are what the collaborator
    returns for the resolver and [s], not for the converted [s]. *)
Theorem assigned_name_labels_completion self s resolver σ d arguments :
  descriptor self σ = Some d →
  s ≠ "" →
  get_arguments_from_resolver resolver (Str s) = inr arguments →
  FieldDefinition.arguments
    <$> descriptor self
          (perform_all [Assign attr_name (Str s); Complete resolver]
             (self, σ)).2
  = Some arguments.
Proof.
  intros Hd Hs Hargs. cbn [perform_all foldl perform attr_str fst snd].
  rewrite (__setattr___run _ _ _ _ d Hd).
  assert (assignment_raises "name" (Str s) d = false) as ->
    by (unfold assignment_raises; apply andb_false_r).
  cbn [fst snd]. unfold final.
  erewrite __call___run; [|apply lookup_assigned].
  unfold StrawberryField.object___setattr__. rewrite decide_True by done.
  cbn [StrawberryField.name StrawberryField._field_definition].
  unfold descriptor. cbn [snd definitions].
  rewrite lookup_insert_eq. cbn. f_equal.
  by apply completed_arguments.
Qed.

End edges.

(** * The scenarios of the specification, run on the sample collaborators *)

Example sample_to_camel_case_user_id :
  sample_to_camel_case "user_id" = "userId"
  ∧ sample_to_camel_case "fetchUser" = "fetchUser"
  ∧ sample_to_camel_case "get_user_profile" = "getUserProfile".
Proof. vm_compute. auto. Qed.

Example field_declares :
  field None (Str "user_id") false None None None empty_store
  = (inr (Binder declared_binder), declared (Str "user_id"))
  ∧ descriptor declared_binder (declared (Str "user_id"))
    = Some (declaration (Str "user_id")).
Proof. vm_compute. split; reflexivity. Qed.

(** C2 (counterexample): a declaration [x = field()], then [x.name =
    "user_id"], which assigns [origin_name] for the first time, then
    [x(fetchUser)]: the completion overwrites [origin_name]. *)
Lemma completion_overwrites_origin_name :
  field None None_ false None None None empty_store
  = (inr (Binder declared_binder), declared None_)
  ∧ FieldDefinition.origin_name
      <$> descriptor declared_binder
            (perform_all [Assign attr_name (Str "user_id")]
               (declared_binder, declared None_)).2
    = Some (Str "user_id")
  ∧ FieldDefinition.origin_name
      <$> descriptor declared_binder
            (perform_all [Assign attr_name (Str "user_id"); Complete fetchUser]
               (declared_binder, declared None_)).2
    = Some (Str "fetchUser").
Proof. vm_compute. repeat split; reflexivity. Qed.

(** C5 (counterexample): [x = field(name="")] sets [name] at construction,
    to the empty string; [x(fetchUser)] does not leave it unchanged. *)
Lemma completion_overwrites_empty_name :
  field None (Str "") false None None None empty_store
  = (inr (Binder declared_binder), declared (Str ""))
  ∧ FieldDefinition.name <$> descriptor declared_binder (declared (Str ""))
    = Some (Str "")
  ∧ FieldDefinition.name
      <$> descriptor declared_binder
            (final (StrawberryField.__call__ declared_binder fetchUser)
               (declared (Str "")))
    = Some (Str "fetchUser").
Proof. vm_compute. repeat split; reflexivity. Qed.

(** C6 (counterexample): [x = field(name="")], then [x.name = "user_id"]:
    the descriptor's [name], already set to the empty string, is
    overwritten with the converted value. *)
Lemma name_assignment_overwrites_empty_name :
  FieldDefinition.name <$> descriptor declared_binder (declared (Str ""))
  = Some (Str "")
  ∧ FieldDefinition.name
      <$> descriptor declared_binder
            (final (StrawberryField.__setattr__ declared_binder "name"
                      (Str "user_id"))
               (declared (Str "")))
    = Some (Str "userId").
Proof. vm_compute. split; reflexivity. Qed.

(** [x = field(name="user_id")] completed with [fetchUser]: [origin_name]
    becomes ["fetchUser"]. *)
Lemma completion_sets_origin_name_witness :
  descriptor declared_binder (declared (Str "user_id"))
  = Some (declaration (Str "user_id"))
  ∧ FieldDefinition.origin_name
      <$> descriptor declared_binder
            (final (StrawberryField.__call__ declared_binder fetchUser)
               (declared (Str "user_id")))
    = Some (Str "fetchUser").
Proof.
  assert (descriptor declared_binder (declared (Str "user_id"))
          = Some (declaration (Str "user_id"))) as Hd
    by (vm_compute; reflexivity).
  split; [exact Hd|].
  exact (proj1 (completion_sets_origin_name declared_binder fetchUser
                  (declared (Str "user_id")) (declaration (Str "user_id")) Hd)).
Defined.

(** The same completion keeps the explicit [name]. *)
Lemma completion_keeps_nonempty_name_witness :
  descriptor declared_binder (declared (Str "user_id"))
  = Some (declaration (Str "user_id"))
  ∧ FieldDefinition.name
      <$> descriptor declared_binder
            (final (StrawberryField.__call__ declared_binder fetchUser)
               (declared (Str "user_id")))
    = Some (Str "user_id").
Proof.
  assert (descriptor declared_binder (declared (Str "user_id"))
          = Some (declaration (Str "user_id"))) as Hd
    by (vm_compute; reflexivity).
  split; [exact Hd|].
  destruct (completion_keeps_nonempty_name declared_binder fetchUser
              (declared (Str "user_id")) (declaration (Str "user_id")) Hd)
    as (d' & -> & Hkeep & _).
  cbn. f_equal. by apply Hkeep.
Defined.

(** [x = field(name="")] completed with [fetchUser]: [name] becomes
    ["fetchUser"]. *)
Lemma completion_replaces_empty_name_witness :
  descriptor declared_binder (declared (Str ""))
  = Some (declaration (Str ""))
  ∧ FieldDefinition.name
      <$> descriptor declared_binder
            (final (StrawberryField.__call__ declared_binder fetchUser)
               (declared (Str "")))
    = Some (Str "fetchUser").
Proof.
  assert (descriptor declared_binder (declared (Str ""))
          = Some (declaration (Str ""))) as Hd
    by (vm_compute; reflexivity).
  split; [exact Hd|].
  destruct (completion_replaces_empty_name declared_binder fetchUser
              (declared (Str "")) (declaration (Str "")) Hd)
    as (d' & -> & Hempty & _).
  cbn. f_equal. by apply Hempty.
Defined.

(** [x = field()], then [x.name = "user_id"]: [origin_name] is the value
    as written and [name] its converted form. *)
Lemma name_assignment_fills_unset_names_witness :
  descriptor declared_binder (declared None_) = Some (declaration None_)
  ∧ "user_id" ≠ ""
  ∧ ∃ d',
      descriptor declared_binder
        (final (StrawberryField.__setattr__ declared_binder "name"
                  (Str "user_id")) (declared None_))
      = Some d'
      ∧ FieldDefinition.origin_name d' = Str "user_id"
      ∧ FieldDefinition.name d' = Str "userId".
Proof.
  assert (descriptor declared_binder (declared None_)
          = Some (declaration None_)) as Hd
    by (vm_compute; reflexivity).
  assert ("user_id" ≠ "") as Hs by discriminate.
  split; [exact Hd|]. split; [exact Hs|].
  destruct (name_assignment_fills_unset_names declared_binder "user_id"
              (declared None_) (declaration None_) Hd Hs)
    as (self' & d' & _ & _ & Hd' & Hboth & _).
  exists d'. split; [exact Hd'|]. by apply Hboth.
Defined.

Example field_resolves :
  field (Some get_user_profile) None_ false None None None empty_store
  = (inr (Resolver get_user_profile),
     mkStore {[1%positive := resolved get_user_profile None_ []]}
             {[2%positive := 1%positive]})
  ∧ field (Some fetchUser) None_ false None None None empty_store
    = (inr (Resolver fetchUser),
       mkStore {[1%positive :=
                   resolved fetchUser (Type_ User)
                     [{| argument_name := "id"; argument_type := str |}]]}
               {[1%positive := 1%positive]}).
Proof. vm_compute. split; reflexivity. Qed.

(** A descriptor named by [x.name = "user_id"] keeps its [origin_name]
    through later assignments. *)
Lemma origin_name_kept_by_assignments_witness :
  descriptor declared_binder
    (mkStore {[1%positive :=
                 FieldDefinition.set_origin_name (Str "user_id")
                   (declaration (Str "userId"))]} ∅)
  = Some (FieldDefinition.set_origin_name (Str "user_id")
            (declaration (Str "userId")))
  ∧ truthy (Str "user_id") = true
  ∧ FieldDefinition.origin_name
      <$> descriptor declared_binder
            (perform_all
               [Assign attr_name (Str "userName"); Assign attr_type (Type_ str);
                Assign attr_name None_]
               (declared_binder,
                mkStore {[1%positive :=
                            FieldDefinition.set_origin_name (Str "user_id")
                              (declaration (Str "userId"))]} ∅)).2
    = Some (Str "user_id").
Proof.
  assert (descriptor declared_binder
            (mkStore {[1%positive :=
                         FieldDefinition.set_origin_name (Str "user_id")
                           (declaration (Str "userId"))]} ∅)
          = Some (FieldDefinition.set_origin_name (Str "user_id")
                    (declaration (Str "userId")))) as Hd
    by (vm_compute; reflexivity).
  assert (truthy (Str "user_id") = true) as Hon by reflexivity.
  split; [exact Hd|]. split; [exact Hon|].
  exact (proj1 (origin_name_kept_by_assignments
                  [(attr_name, Str "userName"); (attr_type, Type_ str);
                   (attr_name, None_)]
                  declared_binder _ _ Hd Hon)).
Defined.



(** The Binder of [x = field()] takes part in the generated initializer. *)
Lemma binder_init_flag_witness :
  definitions (declared None_) !! 1%positive = Some (declaration None_)
  ∧ ∃ self,
      outcome (StrawberryField.__init__ 1) (declared None_) = inr self
      ∧ StrawberryField.attrs self !! "init" = Some (Bool true).
Proof.
  assert (definitions (declared None_) !! 1%positive
          = Some (declaration None_)) as Hd
    by (vm_compute; reflexivity).
  split; [exact Hd|].
  destruct (binder_init_flag 1 (declared None_) (declaration None_) Hd)
    as (self & Hout & _ & Hinit & _).
  exists self. split; [exact Hout|exact Hinit].
Defined.

(** The diagnostic of the sample collaborator for the unannotated parameter
    of [resolve_items]: [field(resolve_items)] raises at line 100 with the
    field's name as label; the completion of [x = field()] raises at line 49
    with [None] as label, although the descriptor is named by then. *)
Example completion_diagnostic_label :
  outcome (field (Some resolve_items) None_ false None None None) empty_store
  = inl (Propagated
           {| exception_class := "MissingArgumentsAnnotationsError";
              exception_args := [Str "resolveItems"; Str "first"] |})
  ∧ outcome (StrawberryField.__call__ declared_binder resolve_items)
      (declared None_)
    = inl (Propagated
             {| exception_class := "MissingArgumentsAnnotationsError";
                exception_args := [None_; Str "first"] |})
  ∧ FieldDefinition.name
      <$> descriptor declared_binder
            (final (StrawberryField.__call__ declared_binder resolve_items)
               (declared None_))
    = Some (Str "resolveItems").
Proof. vm_compute. repeat split; reflexivity. Qed.

(** [field(fetchUser)] and then an assignment and a second completion on a
    Binder of the same descriptor: [base_resolver] stays [fetchUser]. *)
Lemma operations_keep_base_resolver_witness :
  descriptor declared_binder
    (mkStore {[1%positive := resolved fetchUser (Type_ User) []]} ∅)
  = Some (resolved fetchUser (Type_ User) [])
  ∧ FieldDefinition.base_resolver
      <$> descriptor declared_binder
            (perform_all
               [Assign attr_name (Str "user"); Complete get_user_profile]
               (declared_binder,
                mkStore {[1%positive := resolved fetchUser (Type_ User) []]} ∅)).2
    = Some (Some fetchUser).
Proof.
  assert (descriptor declared_binder
            (mkStore {[1%positive := resolved fetchUser (Type_ User) []]} ∅)
          = Some (resolved fetchUser (Type_ User) [])) as Hd
    by (vm_compute; reflexivity).
  split; [exact Hd|].
  exact (operations_keep_base_resolver
           [Assign attr_name (Str "user"); Complete get_user_profile]
           declared_binder _ _ Hd).
Defined.

(** Two declarations in one store: completing the first leaves the second
    as it is. *)
Lemma operations_leave_other_descriptors_witness :
  descriptor declared_binder
    (mkStore (<[2%positive := declaration (Str "b")]>
                {[1%positive := declaration (Str "a")]}) ∅)
  = Some (declaration (Str "a"))
  ∧ 2%positive ≠ StrawberryField._field_definition declared_binder
  ∧ definitions
      (perform (Complete fetchUser)
         (declared_binder,
          mkStore (<[2%positive := declaration (Str "b")]>
                     {[1%positive := declaration (Str "a")]}) ∅)).2
      !! 2%positive
    = Some (declaration (Str "b")).
Proof.
  assert (descriptor declared_binder
            (mkStore (<[2%positive := declaration (Str "b")]>
                        {[1%positive := declaration (Str "a")]}) ∅)
          = Some (declaration (Str "a"))) as Hd
    by (vm_compute; reflexivity).
  assert (2%positive ≠ StrawberryField._field_definition declared_binder)
    as Hl by discriminate.
  split; [exact Hd|]. split; [exact Hl|].
  rewrite (operations_leave_other_descriptors (Complete fetchUser)
             declared_binder _ _ 2%positive Hd Hl).
  vm_compute. reflexivity.
Defined.

(** [x = field()], then [x.type = str]. *)
Lemma type_assignment_mirrored_witness :
  descriptor declared_binder (declared None_) = Some (declaration None_)
  ∧ FieldDefinition.type
      <$> descriptor declared_binder
            (final (StrawberryField.__setattr__ declared_binder "type"
                      (Type_ str)) (declared None_))
    = Some (Type_ str).
Proof.
  assert (descriptor declared_binder (declared None_)
          = Some (declaration None_)) as Hd
    by (vm_compute; reflexivity).
  split; [exact Hd|].
  destruct (type_assignment_mirrored declared_binder (Type_ str)
              (declared None_) (declaration None_) Hd)
    as (self' & _ & _ & ->).
  reflexivity.
Defined.

(** A Binder built around the descriptor of [field(fetchUser)], whose
    [type] is [User]. *)
Lemma binder_construction_resets_type_witness :
  definitions (mkStore {[1%positive := resolved fetchUser (Type_ User) []]} ∅)
    !! 1%positive
  = Some (resolved fetchUser (Type_ User) [])
  ∧ FieldDefinition.type
      <$> definitions
            (final (StrawberryField.__init__ 1)
               (mkStore {[1%positive := resolved fetchUser (Type_ User) []]} ∅))
          !! 1%positive
    = Some None_.
Proof.
  assert (definitions
            (mkStore {[1%positive := resolved fetchUser (Type_ User) []]} ∅)
            !! 1%positive
          = Some (resolved fetchUser (Type_ User) [])) as Hd
    by (vm_compute; reflexivity).
  split; [exact Hd|].
  by rewrite (binder_construction_resets_type 1 _ _ Hd).
Defined.

(** [field(fetchUser)] in the empty store. *)
Lemma field_with_resolver_witness :
  sample_get_arguments_from_resolver fetchUser (Str "fetchUser")
  = inr [{| argument_name := "id"; argument_type := str |}]
  ∧ sample_get_arguments_from_resolver fetchUser None_
    = inr [{| argument_name := "id"; argument_type := str |}]
  ∧ typing.get_type_hints fetchUser
    = inr (<["id" := str]> (<["return" := User]> ∅))
  ∧ Callable.has_dict fetchUser = true
  ∧ ∃ (l : loc) d,
      outcome (field (Some fetchUser) None_ false None None None) empty_store
      = inr (Resolver fetchUser)
      ∧ definitions
          (final (field (Some fetchUser) None_ false None None None) empty_store)
          !! l = Some d
      ∧ FieldDefinition.name d = Str "fetchUser"
      ∧ FieldDefinition.type d = Type_ User.
Proof.
  assert (get_arguments_from_resolver fetchUser
            (Str (to_camel_case (Callable.__name__ fetchUser)))
          = inr [{| argument_name := "id"; argument_type := str |}]) as Hfirst
    by (vm_compute; reflexivity).
  assert (get_arguments_from_resolver fetchUser None_
          = inr [{| argument_name := "id"; argument_type := str |}]) as Hsecond
    by (vm_compute; reflexivity).
  assert (typing.get_type_hints fetchUser
          = inr (<["id" := str]> (<["return" := User]> ∅))) as Hhints
    by (vm_compute; reflexivity).
  assert (Callable.has_dict fetchUser = true) as Hdict by reflexivity.
  split; [exact Hfirst|]. split; [exact Hsecond|].
  split; [exact Hhints|]. split; [exact Hdict|].
  destruct (field_with_resolver empty_store fetchUser false None None None
              _ _ _ Hfirst Hsecond Hhints Hdict)
    as (l & d & Hout & _ & Hd & _ & _ & Hname & _ & _ & Htype & _).
  exists l, d. split; [exact Hout|]. split; [exact Hd|]. split; [exact Hname|].
  rewrite Htype. vm_compute. reflexivity.
Defined.

(** [x = field(name="user_id")], then [x.name = ""]. *)
Lemma false_name_assignment_skips_descriptor_witness :
  descriptor declared_binder (declared (Str "user_id"))
  = Some (declaration (Str "user_id"))
  ∧ truthy (Str "") = false
  ∧ final (StrawberryField.__setattr__ declared_binder "name" (Str ""))
      (declared (Str "user_id"))
    = declared (Str "user_id").
Proof.
  assert (descriptor declared_binder (declared (Str "user_id"))
          = Some (declaration (Str "user_id"))) as Hd
    by (vm_compute; reflexivity).
  assert (truthy (Str "") = false) as Hfalse by reflexivity.
  split; [exact Hd|]. split; [exact Hfalse|].
  destruct (false_name_assignment_skips_descriptor declared_binder (Str "")
              (declared (Str "user_id")) _ Hd Hfalse) as (self' & Hrun & _).
  unfold final. by rewrite Hrun.
Defined.

(** [x = field()], then [x.default = "d"]. *)
Lemma other_assignment_passes_through_witness :
  plain_attribute "default" = true
  ∧ final (StrawberryField.__setattr__ declared_binder "default" (Str "d"))
      (declared None_)
    = declared None_.
Proof.
  assert (plain_attribute "default" = true) as Hplain
    by (vm_compute; reflexivity).
  split; [exact Hplain|].
  destruct (other_assignment_passes_through declared_binder "default"
              (Str "d") (declared None_) Hplain) as (self' & Hrun & _).
  unfold final. by rewrite Hrun.
Defined.

(** [x = field()], then [x(fetchUser)] twice. *)
Lemma completion_is_idempotent_witness :
  descriptor declared_binder (declared None_) = Some (declaration None_)
  ∧ StrawberryField.__call__ declared_binder fetchUser
      (final (StrawberryField.__call__ declared_binder fetchUser)
         (declared None_))
    = StrawberryField.__call__ declared_binder fetchUser (declared None_).
Proof.
  assert (descriptor declared_binder (declared None_)
          = Some (declaration None_)) as Hd
    by (vm_compute; reflexivity).
  split; [exact Hd|].
  exact (completion_is_idempotent declared_binder fetchUser (declared None_)
           (declaration None_) Hd).
Defined.

(** [x = field()], then [x(fetchUser)] and [x(get_user_profile)]. *)
Lemma second_completion_keeps_first_name_witness :
  descriptor declared_binder (declared None_) = Some (declaration None_)
  ∧ FieldDefinition.name (declaration None_) = None_
  ∧ sample_to_camel_case "fetchUser" ≠ ""
  ∧ ∃ d',
      descriptor declared_binder
        (perform_all [Complete fetchUser; Complete get_user_profile]
           (declared_binder, declared None_)).2
      = Some d'
      ∧ FieldDefinition.name d' = Str "fetchUser"
      ∧ FieldDefinition.origin_name d' = Str "getUserProfile".
Proof.
  assert (descriptor declared_binder (declared None_)
          = Some (declaration None_)) as Hd
    by (vm_compute; reflexivity).
  assert (FieldDefinition.name (declaration None_) = None_) as Hname
    by reflexivity.
  assert (to_camel_case (Callable.__name__ fetchUser) ≠ "") as Hfirst
    by (vm_compute; discriminate).
  split; [exact Hd|]. split; [exact Hname|]. split; [exact Hfirst|].
  destruct (second_completion_keeps_first_name declared_binder fetchUser
              get_user_profile (declared None_) _ Hd Hname Hfirst)
    as (d' & Hd' & Hn & Hon & _).
  exists d'. split; [exact Hd'|]. split; [exact Hn|exact Hon].
Defined.

(** [x = field()], then [x(resolve_items)], whose parameter [first] has no
    annotation. *)
Lemma failed_completion_is_partial_witness :
  descriptor declared_binder (declared None_) = Some (declaration None_)
  ∧ sample_get_arguments_from_resolver resolve_items None_
    = inl {| exception_class := "MissingArgumentsAnnotationsError";
             exception_args := [None_; Str "first"] |}
  ∧ ∃ d',
      descriptor declared_binder
        (final (StrawberryField.__call__ declared_binder resolve_items)
           (declared None_))
      = Some d'
      ∧ FieldDefinition.origin_name d' = Str "resolveItems"
      ∧ FieldDefinition.type d' = None_.
Proof.
  assert (descriptor declared_binder (declared None_)
          = Some (declaration None_)) as Hd
    by (vm_compute; reflexivity).
  assert (get_arguments_from_resolver resolve_items
            (StrawberryField.name declared_binder)
          = inl {| exception_class := "MissingArgumentsAnnotationsError";
                   exception_args := [None_; Str "first"] |}) as He
    by (vm_compute; reflexivity).
  split; [exact Hd|]. split; [exact He|].
  destruct (failed_completion_is_partial declared_binder resolve_items
              (declared None_) _ _ Hd He)
    as (d' & _ & Hd' & Hon & _ & _ & _ & Hty & _).
  exists d'. split; [exact Hd'|]. split; [exact Hon|exact Hty].
Defined.

(** [x = field()], then [x(fetchUser)]: [fetchUser._field_definition] is
    the descriptor of [x]. *)
Lemma completion_shares_descriptor_witness :
  descriptor declared_binder (declared None_) = Some (declaration None_)
  ∧ sample_get_arguments_from_resolver fetchUser None_
    = inr [{| argument_name := "id"; argument_type := str |}]
  ∧ typing.get_type_hints fetchUser
    = inr (<["id" := str]> (<["return" := User]> ∅))
  ∧ Callable.has_dict fetchUser = true
  ∧ outcome (StrawberryField.__call__ declared_binder fetchUser)
      (declared None_)
    = inr fetchUser
  ∧ function_attrs
      (final (StrawberryField.__call__ declared_binder fetchUser)
         (declared None_)) !! Callable.id fetchUser
    = Some 1%positive.
Proof.
  assert (descriptor declared_binder (declared None_)
          = Some (declaration None_)) as Hd
    by (vm_compute; reflexivity).
  assert (get_arguments_from_resolver fetchUser
            (StrawberryField.name declared_binder)
          = inr [{| argument_name := "id"; argument_type := str |}]) as Hargs
    by (vm_compute; reflexivity).
  assert (typing.get_type_hints fetchUser
          = inr (<["id" := str]> (<["return" := User]> ∅))) as Hhints
    by (vm_compute; reflexivity).
  assert (Callable.has_dict fetchUser = true) as Hdict by reflexivity.
  split; [exact Hd|]. split; [exact Hargs|].
  split; [exact Hhints|]. split; [exact Hdict|].
  destruct (proj1 (completion_shares_descriptor declared_binder fetchUser
                     (declared None_) _ _ _ Hd Hargs Hhints) Hdict)
    as (Hout & Hattr & _).
  split; [exact Hout|exact Hattr].
Defined.

(** [x = field()], then [x(service.fetch_all)], a bound method: the
    descriptor is completed, and the assignment of the back-reference
    raises. *)
Example completion_of_bound_method :
  outcome (StrawberryField.__call__ declared_binder fetch_all) (declared None_)
  = inl AttributeError
  ∧ FieldDefinition.type
      <$> descriptor declared_binder
            (final (StrawberryField.__call__ declared_binder fetch_all)
               (declared None_))
    = Some (Type_ str)
  ∧ function_attrs
      (final (StrawberryField.__call__ declared_binder fetch_all)
         (declared None_))
    = ∅.
Proof. vm_compute. repeat split; reflexivity. Qed.

(** [field(fetchUser, name="user")]. *)
Lemma field_with_resolver_and_name_witness :
  "user" ≠ ""
  ∧ sample_get_arguments_from_resolver fetchUser (Str "fetchUser")
    = inr [{| argument_name := "id"; argument_type := str |}]
  ∧ ∃ d,
      definitions
        (final (field (Some fetchUser) (Str "user") false None None None)
           empty_store) !! fresh (dom (definitions empty_store))
      = Some d
      ∧ FieldDefinition.name d = Str "user"
      ∧ FieldDefinition.origin_name d = Str "fetchUser"
      ∧ outcome (field (Some fetchUser) (Str "user") false None None None)
          empty_store
        = inr (Resolver fetchUser).
Proof.
  assert ("user" ≠ "") as Hs by discriminate.
  assert (get_arguments_from_resolver fetchUser
            (Str (to_camel_case (Callable.__name__ fetchUser)))
          = inr [{| argument_name := "id"; argument_type := str |}]) as Hfirst
    by (vm_compute; reflexivity).
  split; [exact Hs|]. split; [exact Hfirst|].
  destruct (field_with_resolver_and_name empty_store fetchUser "user" false
              None None None _ Hs Hfirst)
    as (d & Hd & Hname & Hon & Hout).
  exists d. split; [exact Hd|]. split; [exact Hname|]. split; [exact Hon|].
  apply (Hout [{| argument_name := "id"; argument_type := str |}]
              (<["id" := str]> (<["return" := User]> ∅)));
    vm_compute; reflexivity.
Defined.

(** [field(resolve_items)] in a store that holds one declaration. *)
Lemma field_raises_before_construction_witness :
  sample_get_arguments_from_resolver resolve_items (Str "resolveItems")
  = inl {| exception_class := "MissingArgumentsAnnotationsError";
           exception_args := [Str "resolveItems"; Str "first"] |}
  ∧ final (field (Some resolve_items) None_ false None None None)
      (declared None_)
    = declared None_.
Proof.
  assert (get_arguments_from_resolver resolve_items
            (Str (to_camel_case (Callable.__name__ resolve_items)))
          = inl {| exception_class := "MissingArgumentsAnnotationsError";
                   exception_args := [Str "resolveItems"; Str "first"] |})
    as He by (vm_compute; reflexivity).
  split; [exact He|].
  unfold final.
  by rewrite (field_raises_before_construction (declared None_) resolve_items
                None_ false None None None _ He).
Defined.

(** A second declaration, [field(fetchUser)], in the store of a first. *)
Lemma field_keeps_existing_descriptors_witness :
  definitions (declared (Str "a")) !! 1%positive = Some (declaration (Str "a"))
  ∧ definitions
      (final (field (Some fetchUser) None_ false None None None)
         (declared (Str "a"))) !! 1%positive
    = Some (declaration (Str "a")).
Proof.
  assert (definitions (declared (Str "a")) !! 1%positive
          = Some (declaration (Str "a"))) as Hd
    by (vm_compute; reflexivity).
  split; [exact Hd|].
  exact (field_keeps_existing_descriptors (declared (Str "a")) (Some fetchUser)
           None_ false None None None 1%positive _ Hd).
Defined.

(** A subscription field with a description, through an assignment and a
    completion. *)
Lemma operations_keep_configuration_witness :
  descriptor declared_binder
    (mkStore {[1%positive :=
                 constructed None None_ None_ true (Some "Ticks") None [] None]}
             ∅)
  = Some (constructed None None_ None_ true (Some "Ticks") None [] None)
  ∧ ∃ d',
      descriptor declared_binder
        (perform_all [Assign attr_name (Str "ticks"); Complete fetchUser]
           (declared_binder,
            mkStore {[1%positive :=
                        constructed None None_ None_ true (Some "Ticks") None
                          [] None]} ∅)).2
      = Some d'
      ∧ FieldDefinition.description d' = Some "Ticks"
      ∧ FieldDefinition.is_subscription d' = true.
Proof.
  assert (descriptor declared_binder
            (mkStore {[1%positive :=
                         constructed None None_ None_ true (Some "Ticks") None
                           [] None]} ∅)
          = Some (constructed None None_ None_ true (Some "Ticks") None [] None))
    as Hd by (vm_compute; reflexivity).
  split; [exact Hd|].
  destruct (operations_keep_configuration
              [Assign attr_name (Str "ticks"); Complete fetchUser]
              declared_binder _ _ Hd)
    as (d' & Hd' & Hdesc & Hsub & _).
  exists d'. split; [exact Hd'|]. split; [exact Hdesc|exact Hsub].
Defined.

(** [x = field()], [x.name = "fetch_user"], then [x(fetchUser)]. *)
Lemma assigned_name_labels_completion_witness :
  descriptor declared_binder (declared None_) = Some (declaration None_)
  ∧ "fetch_user" ≠ ""
  ∧ sample_get_arguments_from_resolver fetchUser (Str "fetch_user")
    = inr [{| argument_name := "id"; argument_type := str |}]
  ∧ FieldDefinition.arguments
      <$> descriptor declared_binder
            (perform_all [Assign attr_name (Str "fetch_user"); Complete fetchUser]
               (declared_binder, declared None_)).2
    = Some [{| argument_name := "id"; argument_type := str |}].
Proof.
  assert (descriptor declared_binder (declared None_)
          = Some (declaration None_)) as Hd
    by (vm_compute; reflexivity).
  assert ("fetch_user" ≠ "") as Hs by discriminate.
  assert (get_arguments_from_resolver fetchUser (Str "fetch_user")
          = inr [{| argument_name := "id"; argument_type := str |}]) as Hargs
    by (vm_compute; reflexivity).
  split; [exact Hd|]. split; [exact Hs|]. split; [exact Hargs|].
  exact (assigned_name_labels_completion declared_binder "fetch_user"
           fetchUser (declared None_) _ _ Hd Hs Hargs).
Defined.
